(** * ZHIPUAI: the ChatGLM endpoint adapter of salesgpt/zhipullm.py

    A shallow embedding of the class [ZHIPUAI]: its token generator
    [generate_token] and its completion invoker [_call].

    - Python values are a small inductive type: ints are [Z], floats are
      binary64 floats, a str is a sequence of characters, a dict is a
      finite map from str.
    - Every raise site of the source is a constructor of [exn]; the
      lookup errors Python raises by itself are constructors too, since
      the source catches none of them.
    - The calls that leave the adapter (the clock, PyJWT, requests) are
      fields of a [world]; a state-and-error monad threads the number of
      clock readings and the trace of these calls.
    - [enforce_stop_tokens] is langchain's; it is modelled from the
      specification. *)

From Stdlib Require Import ZArith String Ascii List Floats Lia.
From stdpp Require Import gmap strings list fin_maps.

#[local] Set Warnings "-register-all,-inexact-float".
#[local] Open Scope Z_scope.
#[local] Open Scope string_scope.

(** ** Python values *)

(** What [response.json()] can return and what a payload can hold:
    JSON data as Python sees it.  A [dict] is a finite map from [str]. *)
Inductive pyval : Type :=
  | PNone
  | PBool (b : bool)
  | PInt (z : Z)
  | PFloat (f : float)
  | PStr (s : string)
  | PList (l : list pyval)
  | PDict (d : gmap string pyval).

(** The double quote, as a character. *)
Definition dquote : ascii := ascii_of_nat 34.

(** [quoted s] is [s] between two double quotes. *)
Definition quoted (s : string) : string :=
  String dquote (s +:+ String dquote "").

(** ** Exceptions *)

(** Why [id, secret = apikey.split(".")] can fail. *)
Inductive split_failure : Type :=
  | NoSplitAttribute            (* AttributeError: None has no split *)
  | WrongArity (parts : nat).   (* ValueError: cannot unpack into two names *)

Record Response : Type := mkResponse {
  status_code : Z;
  text : string;
  json : option pyval   (* None: response.json() raises JSONDecodeError *)
}.

(** One constructor per raise site of the source, named after the error
    taxonomy of the specification; the last three are the lookup errors
    Python raises by itself. *)
Inductive exn : Type :=
  | InvalidCredentialError (cause : split_failure)  (* Exception("invalid apikey", e) *)
  | JwtError (msg : string)                         (* raised inside jwt.encode *)
  | TransportError (msg : string)                   (* "Error raised by inference endpoint" *)
  | EndpointError (r : Response)                    (* "Failed with response: ..." *)
  | ResponseDecodeError (raw : string)              (* "Error raised during decoding response" *)
  | UnexpectedResponseError (body : pyval)          (* "Unexpected response type" *)
  | RemoteServiceError (code msg : pyval)           (* "Failed with response(code): msg" *)
  | MissingContentError (body : pyval)              (* "No content in response" *)
  | KeyError (key : pyval)
  | IndexError
  | TypeError.

Inductive result (A : Type) : Type :=
  | Ok (a : A)
  | Raise (e : exn).
Arguments Ok {A} a.
Arguments Raise {A} e.

(** ** The outside world *)

(** The calls that leave the adapter, in the order they are made. *)
Inductive event : Type :=
  | TimeTime
  | JwtEncode (payload : gmap string pyval) (key algorithm : string)
              (headers : gmap string pyval)
  | RequestsPost (url : string) (headers : gmap string string)
                 (payload : gmap string pyval)
  | ResponseJson.

(** [time_ms n] is the value of the [n]-th evaluation of
    [int(round(time.time() * 1000))]; [jwt_encode] and [requests_post]
    either raise (left) or return (right). *)
Record world : Type := mkWorld {
  environ : gmap string string;
  time_ms : nat -> Z;
  jwt_encode : gmap string pyval -> string -> string -> gmap string pyval ->
               string + string;
  requests_post : string -> gmap string string -> gmap string pyval ->
                  string + Response
}.

Record state : Type := mkState {
  ticks : nat;          (* clock readings taken so far *)
  trace : list event    (* outside calls made so far, oldest first *)
}.

Definition M (A : Type) : Type := state -> result A * state.

#[export] Instance M_ret : MRet M := fun A a st => (Ok a, st).
#[export] Instance M_bind : MBind M := fun A B f c st =>
  match c st with
  | (Ok a, st') => f a st'
  | (Raise e, st') => (Raise e, st')
  end.

Definition raise {A : Type} (e : exn) : M A := fun st => (Raise e, st).

Definition lift {A : Type} (r : result A) : M A := fun st => (r, st).

Definition emit (ev : event) : M unit := fun st =>
  (Ok tt, {| ticks := ticks st; trace := trace st ++ [ev] |}).

(** [int(round(time.time() * 1000))]: one reading of the clock. *)
Definition now_ms (w : world) : M Z := fun st =>
  (Ok (time_ms w (ticks st)),
   {| ticks := S (ticks st); trace := trace st ++ [TimeTime] |}).

(** ** Strings *)

(** Number of occurrences of the character [sep]. *)
Fixpoint count_char (sep : ascii) (s : string) : nat :=
  match s with
  | "" => 0%nat
  | String c r => if Ascii.eqb c sep then S (count_char sep r) else count_char sep r
  end.

(** [s.split(sep)] for a separator of one character: every occurrence
    separates, so the result has one part more than there are separators. *)
Fixpoint split (sep : ascii) (s : string) : list string :=
  match s with
  | "" => [""]
  | String c r =>
      if Ascii.eqb c sep then "" :: split sep r
      else match split sep r with
           | h :: t => String c h :: t
           | [] => [String c ""]
           end
  end.

(** ** generate_token *)

(** Lines 147-150: [id, secret = apikey.split(".")] under [except Exception]. *)
Definition split_apikey (apikey : option string) : result (string * string) :=
  match apikey with
  | None => Raise (InvalidCredentialError NoSplitAttribute)
  | Some s =>
      match split "." s with
      | [id; secret] => Ok (id, secret)
      | parts => Raise (InvalidCredentialError (WrongArity (length parts)))
      end
  end.

Definition jwt_headers : gmap string pyval :=
  {[ "alg" := PStr "HS256"; "sign_type" := PStr "SIGN" ]}.

(** The dict literal of lines 152-156, its three values given. *)
Definition token_claims (id : string) (exp timestamp : Z) : gmap string pyval :=
  {[ "api_key" := PStr id; "exp" := PInt exp; "timestamp" := PInt timestamp ]}.

(** Lines 152-163: the claims are built with two readings of the clock,
    the first for ["exp"], the second for ["timestamp"], and signed. *)
Definition sign_claims (w : world) (id secret : string) (exp_seconds : Z) : M string :=
  t_exp ← now_ms w;
  t_stamp ← now_ms w;
  let payload := token_claims id (t_exp + exp_seconds * 1000) t_stamp in
  _ ← emit (JwtEncode payload secret "HS256" jwt_headers);
  match jwt_encode w payload secret "HS256" jwt_headers with
  | inl msg => raise (JwtError msg)
  | inr token => mret token
  end.

Definition generate_token (w : world) (apikey : option string) (exp_seconds : Z) : M string :=
  '(id, secret) ← lift (split_apikey apikey);
  sign_claims w id secret exp_seconds.

(** ** Python operations used by _call *)

(** [v == 200], as Python compares a JSON value with the int 200: an int
    by value, a float when it is exactly 200.0; [True] is 1 and [False]
    is 0, everything else differs from every int. *)
Definition eq_200 (v : pyval) : bool :=
  match v with
  | PInt z => Z.eqb z 200
  | PFloat f => PrimFloat.eqb f 200%float
  | _ => false
  end.

(** [v[key]] for a [str] key: only a dict accepts it. *)
Definition getitem_str (v : pyval) (key : string) : result pyval :=
  match v with
  | PDict d =>
      match d !! key with
      | Some x => Ok x
      | None => Raise (KeyError (PStr key))
      end
  | _ => Raise TypeError
  end.

(** [v[0]]: the first element of a list, the first character of a str;
    a dict parsed from JSON has no int key. *)
Definition getitem_0 (v : pyval) : result pyval :=
  match v with
  | PList l =>
      match l !! 0%nat with
      | Some x => Ok x
      | None => Raise IndexError
      end
  | PStr s =>
      match s with
      | String c _ => Ok (PStr (String c ""))
      | "" => Raise IndexError
      end
  | PDict _ => Raise (KeyError (PInt 0))
  | _ => Raise TypeError
  end.

(** A slice bound brought into [0, len], as Python does for step 1. *)
Definition adjust_index (len i : Z) : Z :=
  if Z.ltb i 0 then Z.max 0 (i + len) else Z.min i len.

(** [s[start:stop]] on a str. *)
Definition slice_str (s : string) (start stop : Z) : string :=
  let len := Z.of_nat (String.length s) in
  let a := adjust_index len start in
  let b := adjust_index len stop in
  substring (Z.to_nat a) (Z.to_nat (b - a)) s.

(** [l[start:stop]] on a list. *)
Definition slice_list {A : Type} (l : list A) (start stop : Z) : list A :=
  let len := Z.of_nat (length l) in
  let a := adjust_index len start in
  let b := adjust_index len stop in
  take (Z.to_nat (b - a)) (drop (Z.to_nat a) l).

(** [v[start:stop]]: str and list are the JSON values that can be sliced. *)
Definition getslice (v : pyval) (start stop : Z) : result pyval :=
  match v with
  | PStr s => Ok (PStr (slice_str s start stop))
  | PList l => Ok (PList (slice_list l start stop))
  | _ => Raise TypeError
  end.

(** [d.update(other)]: every item of [other] is stored into [d]. *)
Definition dict_update (d other : gmap string pyval) : gmap string pyval :=
  map_fold (fun k v acc => <[k := v]> acc) d other.

(** Modelled from the spec: [enforce_stop_tokens] of langchain.llms.utils,
    which the source imports and which is not part of the repository.
    Section 4.2: truncate the text at the first occurrence of any stop
    sequence, keeping the text strictly before the earliest match; if
    none matches, the text is unchanged.  [stop_here stop s] says that a
    stop sequence occurs at the very start of [s]. *)
Definition stop_here (stop : list string) (s : string) : bool :=
  existsb (fun t => String.prefix t s) stop.

Fixpoint truncate_at_stop (stop : list string) (s : string) : string :=
  if stop_here stop s then ""
  else match s with
       | "" => ""
       | String c r => String c (truncate_at_stop stop r)
       end.

(** [enforce_stop_tokens(text, stop)] on an arbitrary value: the helper
    works on str only. *)
Definition enforce_stop_tokens (v : pyval) (stop : list string) : result pyval :=
  match v with
  | PStr s => Ok (PStr (truncate_at_stop stop s))
  | _ => Raise TypeError
  end.

(** ** The adapter and _call *)

Record ZHIPUAI : Type := mkZHIPUAI {
  endpoint_url : string;
  model_kwargs : option (gmap string pyval);
  max_token : Z;
  temperature : float;
  top_p : float
}.

(** The class attributes' defaults (lines 30-40). *)
Definition default_llm : ZHIPUAI :=
  {| endpoint_url := "http://127.0.0.1:8000/";
     model_kwargs := None;
     max_token := 20000;
     temperature := 0.1%float;
     top_p := 0.7%float |}.

(** Lines 45-48: the property [_llm_type]. *)
Definition _llm_type (self : ZHIPUAI) : string := "zhipuai_chat_glm".

(** Lines 50-57: the property [_identifying_params].  The dict display
    unpacks the two one-key dicts in turn, the second over the first. *)
Definition _identifying_params (self : ZHIPUAI) : gmap string pyval :=
  let _model_kwargs := default ∅ (model_kwargs self) in
  dict_update {[ "endpoint_url" := PStr (endpoint_url self) ]}
              {[ "model_kwargs" := PDict _model_kwargs ]}.

(** Lines 88-91. *)
Definition build_headers (bear_token : string) : gmap string string :=
  {[ "Content-Type" := "application/json";
     "Authorization" := "Bearer " +:+ bear_token ]}.

(** The dict literal of lines 93-98. *)
Definition base_payload (self : ZHIPUAI) (prompt : string) : gmap string pyval :=
  {[ "prompt" := PStr prompt;
     "temperature" := PFloat (temperature self);
     "max_length" := PInt (max_token self);
     "top_p" := PFloat (top_p self) ]}.

(** Lines 81 and 93-100: [self.model_kwargs or {}], the dict literal,
    then the two updates. *)
Definition build_payload (self : ZHIPUAI) (prompt : string)
    (kwargs : gmap string pyval) : gmap string pyval :=
  let _model_kwargs := default ∅ (model_kwargs self) in
  let payload := base_payload self prompt in
  let payload := dict_update payload _model_kwargs in
  dict_update payload kwargs.

(** The environment variable that holds the credential (line 85). *)
Definition KEY : string := "ZHIPUAI_API_KEY".

(** Lines 81-110: read the key, make the token, build and post the
    request. *)
Definition send_request (w : world) (self : ZHIPUAI) (prompt : string)
    (kwargs : gmap string pyval) : M Response :=
  let api_key := environ w !! KEY in
  bear_token ← generate_token w api_key 300;
  let headers := build_headers bear_token in
  let payload := build_payload self prompt kwargs in
  _ ← emit (RequestsPost (endpoint_url self) headers payload);
  match requests_post w (endpoint_url self) headers payload with
  | inl e => raise (TransportError e)
  | inr response => mret response
  end.

(** Line 127: [data['choices'][0]['content']]. *)
Definition first_content (data : pyval) : result pyval :=
  match getitem_str data "choices" with
  | Ok choices =>
      match getitem_0 choices with
      | Ok choice => getitem_str choice "content"
      | Raise e => Raise e
      end
  | Raise e => Raise e
  end.

(** Lines 120-132: the checks on the parsed body, in the order of the
    source.  The message of the failure on [code] reads ['msg'] too. *)
Definition extract_text (parsed_response : pyval) : result pyval :=
  match parsed_response with
  | PDict d =>
      match d !! "code" with
      | None => Raise (KeyError (PStr "code"))
      | Some code =>
          if negb (eq_200 code) then
            match d !! "msg" with
            | None => Raise (KeyError (PStr "msg"))
            | Some msg => Raise (RemoteServiceError code msg)
            end
          else
            match d !! "data" with
            | Some data => first_content data
            | None => Raise (MissingContentError parsed_response)
            end
      end
  | _ => Raise (UnexpectedResponseError parsed_response)
  end.

(** Lines 112-138: the status check, then the body is decoded and the
    text taken out of it. *)
Definition read_text (response : Response) : M pyval :=
  if negb (Z.eqb (status_code response) 200) then raise (EndpointError response)
  else
    _ ← emit ResponseJson;
    match json response with
    | None => raise (ResponseDecodeError (text response))
    | Some parsed_response => lift (extract_text parsed_response)
    end.

(** Lines 140-144: the stop tokens, then [text[1:-1]]. *)
Definition finish_text (v : pyval) (stop : option (list string)) : result pyval :=
  match (match stop with
         | Some l => enforce_stop_tokens v l
         | None => Ok v
         end) with
  | Ok v' => getslice v' 1 (-1)
  | Raise e => Raise e
  end.

Definition _call (w : world) (self : ZHIPUAI) (prompt : string)
    (stop : option (list string)) (kwargs : gmap string pyval) : M pyval :=
  response ← send_request w self prompt kwargs;
  v ← read_text response;
  lift (finish_text v stop).

(** ** Concrete worlds *)

(** A signer that accepts every key, and a clock that advances by one
    millisecond at every reading. *)
Definition toy_sign (payload : gmap string pyval) (key alg : string)
    (headers : gmap string pyval) : string + string :=
  inr ("signed-by-" +:+ key).

Definition ticking (n : nat) : Z := 1700000000000 + Z.of_nat n.

(** The endpoint answers every request with [r]; the key is [apikey]. *)
Definition served (apikey : option string) (r : Response) : world :=
  {| environ := match apikey with
                | Some k => {[ KEY := k ]}
                | None => ∅
                end;
     time_ms := ticking;
     jwt_encode := toy_sign;
     requests_post := fun _ _ _ => inr r |}.

Definition st0 : state := {| ticks := 0; trace := [] |}.

Definition reply (body : pyval) : Response :=
  {| status_code := 200; text := ""; json := Some body |}.

Definition content_body (content : pyval) : pyval :=
  PDict {[ "code" := PInt 200;
           "data" := PDict {[ "choices" := PList [PDict {[ "content" := content ]}] ]} ]}.

Definition hello_body : pyval := content_body (PStr (quoted "hello")).
Definition stop_body : pyval := content_body (PStr (quoted "foo STOP bar")).
Definition bad_request_body : pyval :=
  PDict {[ "code" := PInt 500; "msg" := PStr "bad request"; "data" := PDict ∅ ]}.
Definition no_msg_body : pyval := PDict {[ "code" := PInt 500 ]}.
Definition no_choices_body : pyval := PDict {[ "code" := PInt 200; "data" := PDict ∅ ]}.

(** A body with a well-formed [data] and no [code]. *)
Definition codeless_body : pyval :=
  PDict {[ "data" := PDict {[ "choices" :=
             PList [PDict {[ "content" := PStr (quoted "hello") ]}] ]} ]}.

(** Status 503 with a body that would have been a valid answer. *)
Definition unavailable : Response :=
  {| status_code := 503; text := "Service Unavailable"; json := Some hello_body |}.

(** The adapter with the extra model parameter [top_p = 0.9]. *)
Definition tuned_llm : ZHIPUAI :=
  {| endpoint_url := endpoint_url default_llm;
     model_kwargs := Some {[ "top_p" := PFloat 0.9 ]};
     max_token := max_token default_llm;
     temperature := temperature default_llm;
     top_p := top_p default_llm |}.

(** A world whose clock stands still and whose endpoint is down. *)
Definition frozen : world :=
  {| environ := ∅;
     time_ms := fun _ => 1700000000000;
     jwt_encode := toy_sign;
     requests_post := fun _ _ _ => inl "connection refused" |}.

(** The key [id.secret] and an endpoint that cannot be reached. *)
Definition unreachable : world :=
  {| environ := {[ KEY := "id.secret" ]};
     time_ms := ticking;
     jwt_encode := toy_sign;
     requests_post := fun _ _ _ => inl "connection refused" |}.

(** The key [id.secret] and a signer that refuses every key. *)
Definition unsigned : world :=
  {| environ := {[ KEY := "id.secret" ]};
     time_ms := ticking;
     jwt_encode := fun _ _ _ _ => inl "invalid key";
     requests_post := fun _ _ _ => inr (reply hello_body) |}.

(** A response of status 200 whose body is not JSON. *)
Definition garbled : Response :=
  {| status_code := 200; text := "<html>"; json := None |}.

(** The world of the examples: the key [id.secret], the endpoint
    answering [r]. *)
Definition demo (r : Response) : world := served (Some "id.secret") r.

(** ** Notions used in the statements *)

(** The events added to the trace between two states. *)
Definition since (st st' : state) : list event :=
  drop (length (trace st)) (trace st').

(** The payloads of the POST requests in a list of events. *)
Definition posted (evs : list event) : list (gmap string pyval) :=
  omap (fun ev => match ev with
                  | RequestsPost _ _ payload => Some payload
                  | _ => None
                  end) evs.

(** The text as it stands before the final slice. *)
Definition stop_text (stop : option (list string)) (s : string) : string :=
  match stop with
  | Some l => truncate_at_stop l s
  | None => s
  end.

(** The state after one more outside call. *)
Definition after (st : state) (ev : event) : state :=
  {| ticks := ticks st; trace := trace st ++ [ev] |}.

(** * Properties *)

(** ** The monad *)

Lemma bind_ok {A B : Type} (c : M A) (f : A -> M B) st a st' :
  c st = (Ok a, st') -> (c ≫= f) st = f a st'.
Proof. intros H. unfold mbind, M_bind. now rewrite H. Qed.

Lemma bind_raise {A B : Type} (c : M A) (f : A -> M B) st e st' :
  c st = (Raise e, st') -> (c ≫= f) st = (Raise e, st').
Proof. intros H. unfold mbind, M_bind. now rewrite H. Qed.

Lemma since_refl st : since st st = [].
Proof. unfold since. apply drop_all. Qed.

Lemma since_trace st st' evs :
  trace st' = (trace st ++ evs)%list -> since st st' = evs.
Proof. unfold since. intros ->. now rewrite drop_app_length. Qed.

Lemma posted_app evs evs' : posted (evs ++ evs') = (posted evs ++ posted evs')%list.
Proof. unfold posted. apply omap_app. Qed.

(** Unfolds the monad down to functions on states. *)
Ltac run_monad := unfold mbind, M_bind, mret, M_ret, lift, raise, emit.

(** ** split *)

Lemma split_length sep s : length (split sep s) = S (count_char sep s).
Proof.
  induction s as [|c r IH]; simpl; [reflexivity|].
  destruct (Ascii.eqb c sep); simpl; [now rewrite IH|].
  destruct (split sep r) as [|h t]; simpl in *; [discriminate IH | exact IH].
Qed.

Lemma split_no_sep sep s : count_char sep s = 0%nat -> split sep s = [s].
Proof.
  induction s as [|c r IH]; simpl; [reflexivity|].
  destruct (Ascii.eqb c sep); [discriminate|].
  intros H. now rewrite (IH H).
Qed.

(** One separator: the two parts are the text before it and the text
    after it. *)
Lemma split_one_sep sep s :
  count_char sep s = 1%nat ->
  exists a b, s = a +:+ String sep b /\ count_char sep a = 0%nat /\
              count_char sep b = 0%nat /\ split sep s = [a; b].
Proof.
  induction s as [|c r IH]; simpl; [discriminate|].
  destruct (Ascii.eqb_spec c sep) as [->|Hne]; intros H.
  - exists "", r. injection H as H.
    rewrite (split_no_sep _ _ H). repeat split; auto.
  - destruct (IH H) as (a & b & -> & Ha & Hb & Hs).
    exists (String c a), b. simpl. rewrite Hs.
    destruct (Ascii.eqb_spec c sep); [contradiction|]. repeat split; auto.
Qed.

Lemma count_char_app sep a b :
  count_char sep (a +:+ b) = (count_char sep a + count_char sep b)%nat.
Proof.
  induction a as [|c r IH]; simpl; [reflexivity|].
  destruct (Ascii.eqb c sep); simpl; now rewrite IH.
Qed.

Lemma count_char_joined sep a b :
  count_char sep a = 0%nat -> count_char sep b = 0%nat ->
  count_char sep (a +:+ String sep b) = 1%nat.
Proof.
  intros Ha Hb. rewrite count_char_app, Ha. simpl.
  rewrite Ascii.eqb_refl. now rewrite Hb.
Qed.

Lemma split_joined sep a b :
  count_char sep a = 0%nat -> count_char sep b = 0%nat ->
  split sep (a +:+ String sep b) = [a; b].
Proof.
  intros Ha Hb. induction a as [|c r IH]; simpl in *.
  - rewrite Ascii.eqb_refl. now rewrite (split_no_sep _ _ Hb).
  - destruct (Ascii.eqb c sep); [discriminate|]. now rewrite (IH Ha).
Qed.

(** ** generate_token *)

Lemma split_apikey_ok s id secret :
  split "." s = [id; secret] -> split_apikey (Some s) = Ok (id, secret).
Proof. intros H. unfold split_apikey. now rewrite H. Qed.

Lemma split_apikey_wrong s :
  count_char "." s <> 1%nat ->
  split_apikey (Some s) =
    Raise (InvalidCredentialError (WrongArity (S (count_char "." s)))).
Proof.
  intros H. unfold split_apikey.
  pose proof (split_length "." s) as Hl.
  destruct (split "." s) as [|a [|b [|c t]]]; simpl in *; try (now rewrite Hl).
  lia.
Qed.

(** What [sign_claims] does: two readings, one call of the signer. *)
Lemma sign_claims_run w id secret exp_seconds st :
  sign_claims w id secret exp_seconds st =
    let claims := token_claims id (time_ms w (ticks st) + exp_seconds * 1000)
                               (time_ms w (S (ticks st))) in
    (match jwt_encode w claims secret "HS256" jwt_headers with
     | inl msg => Raise (JwtError msg)
     | inr token => Ok token
     end,
     {| ticks := S (S (ticks st));
        trace := trace st ++ [TimeTime; TimeTime;
                               JwtEncode claims secret "HS256" jwt_headers] |}).
Proof.
  unfold sign_claims, now_ms. run_monad. simpl.
  rewrite <- !app_assoc. simpl.
  destruct (jwt_encode w _ secret "HS256" jwt_headers); reflexivity.
Qed.

Lemma generate_token_split_ok w s id secret exp_seconds st :
  split "." s = [id; secret] ->
  generate_token w (Some s) exp_seconds st = sign_claims w id secret exp_seconds st.
Proof.
  intros H. unfold generate_token.
  now rewrite (bind_ok _ _ st (id, secret) st)
    by (unfold lift; now rewrite (split_apikey_ok _ _ _ H)).
Qed.

(** Token generation adds no POST to the trace, whatever its outcome. *)
Lemma generate_token_trace w apikey exp_seconds st r st1 :
  generate_token w apikey exp_seconds st = (r, st1) ->
  exists evs, trace st1 = (trace st ++ evs)%list /\ posted evs = [] /\
              ResponseJson ∉ evs.
Proof.
  unfold generate_token. run_monad.
  destruct (split_apikey apikey) as [[id secret]|e].
  - rewrite sign_claims_run. cbv zeta. intros [= <- <-]. simpl.
    eexists. split; [reflexivity|]. split; [reflexivity|].
    intros Hin. repeat (apply elem_of_cons in Hin as [Hin|Hin]; [discriminate|]).
    now apply elem_of_nil in Hin.
  - intros [= <- <-]. exists []. rewrite app_nil_r.
    split; [reflexivity|]. split; [reflexivity|]. apply not_elem_of_nil.
Qed.

(** C1 (amended).  [generate_token] splits the credential at every [.]:
    a credential with exactly one [.] passes the check with id the text
    before the [.] and secret the text after it, and the call returns
    what the signer returns for them; the call fails with
    InvalidCredentialError exactly when the credential does not split
    into two parts, that is when the number of [.] in it is not one. *)
Theorem generate_token_two_parts w (apikey : string) exp_seconds st :
  (count_char "." apikey = 1%nat ->
   exists id secret,
     apikey = id +:+ String "." secret /\
     count_char "." id = 0%nat /\
     generate_token w (Some apikey) exp_seconds st =
       sign_claims w id secret exp_seconds st /\
     forall token,
       jwt_encode w (token_claims id (time_ms w (ticks st) + exp_seconds * 1000)
                                  (time_ms w (S (ticks st))))
                  secret "HS256" jwt_headers = inr token ->
       fst (generate_token w (Some apikey) exp_seconds st) = Ok token)
  /\
  (count_char "." apikey <> 1%nat <->
   exists cause,
     generate_token w (Some apikey) exp_seconds st =
       (Raise (InvalidCredentialError cause), st)).
Proof.
  split.
  - intros H1. destruct (split_one_sep _ _ H1) as (id & secret & -> & Hid & _ & Hs).
    exists id, secret. rewrite (generate_token_split_ok _ _ _ _ _ _ Hs).
    repeat split; auto.
    intros token Htok. rewrite sign_claims_run. cbv zeta. simpl.
    now rewrite Htok.
  - split.
    + intros Hne. eexists. unfold generate_token.
      apply bind_raise. unfold lift.
      now rewrite (split_apikey_wrong _ Hne).
    + intros [cause Hfail] H1.
      destruct (split_one_sep _ _ H1) as (id & secret & _ & _ & _ & Hs).
      rewrite (generate_token_split_ok _ _ _ _ _ _ Hs), sign_claims_run in Hfail.
      cbv zeta in Hfail.
      destruct (jwt_encode w _ secret "HS256" jwt_headers); discriminate Hfail.
Qed.

(** The credential [id.secret] has one [.] and is split into [id] and
    [secret]. *)
Lemma generate_token_two_parts_witness :
  exists id secret,
    "id.secret" = id +:+ String "." secret /\
    count_char "." id = 0%nat /\
    generate_token (demo (reply PNone)) (Some "id.secret") 300 st0 =
      sign_claims (demo (reply PNone)) id secret 300 st0 /\
    forall token,
      jwt_encode (demo (reply PNone))
                 (token_claims id (time_ms (demo (reply PNone)) (ticks st0) + 300 * 1000)
                               (time_ms (demo (reply PNone)) (S (ticks st0))))
                 secret "HS256" jwt_headers = inr token ->
      fst (generate_token (demo (reply PNone)) (Some "id.secret") 300 st0) = Ok token.
Proof.
  apply (proj1 (generate_token_two_parts (demo (reply PNone)) "id.secret" 300 st0)).
  reflexivity.
Defined.

(** The credential [a.b.c] contains a [.], and no token is made from it
    although the signer accepts every key: the split gives three parts. *)
Lemma generate_token_three_parts :
  (1 <= count_char "." "a.b.c")%nat /\
  split "." "a.b.c" = ["a"; "b"; "c"] /\
  generate_token (demo (reply PNone)) (Some "a.b.c") 300 st0 =
    (Raise (InvalidCredentialError (WrongArity 3)), st0).
Proof.
  split; [vm_compute; lia|]. split; [reflexivity|]. vm_compute. reflexivity.
Qed.

(** C2 (amended).  For a credential of two parts [id.secret] and every
    offset in seconds, [generate_token] reads the clock twice and signs
    the claims [api_key = id], [exp = t1 + offset * 1000], [timestamp = t2],
    where [t1] and [t2] are the first and the second reading; it returns
    the signer's token.  So [exp - timestamp] is [offset * 1000] less the
    time between the two readings, and exactly [offset * 1000] when the
    two readings agree. *)
Theorem generate_token_claims w id secret exp_seconds st token :
  count_char "." id = 0%nat ->
  count_char "." secret = 0%nat ->
  jwt_encode w (token_claims id (time_ms w (ticks st) + exp_seconds * 1000)
                             (time_ms w (S (ticks st))))
             secret "HS256" jwt_headers = inr token ->
  exists claims exp timestamp,
    generate_token w (Some (id +:+ String "." secret)) exp_seconds st =
      (Ok token,
       {| ticks := S (S (ticks st));
          trace := trace st ++ [TimeTime; TimeTime;
                                 JwtEncode claims secret "HS256" jwt_headers] |}) /\
    claims !! "api_key" = Some (PStr id) /\
    claims !! "exp" = Some (PInt exp) /\
    claims !! "timestamp" = Some (PInt timestamp) /\
    exp - timestamp =
      exp_seconds * 1000 - (time_ms w (S (ticks st)) - time_ms w (ticks st)) /\
    (time_ms w (S (ticks st)) = time_ms w (ticks st) ->
     exp - timestamp = exp_seconds * 1000).
Proof.
  intros Hid Hsecret Htok.
  exists (token_claims id (time_ms w (ticks st) + exp_seconds * 1000)
                       (time_ms w (S (ticks st)))),
         (time_ms w (ticks st) + exp_seconds * 1000), (time_ms w (S (ticks st))).
  rewrite (generate_token_split_ok _ _ _ _ _ _ (split_joined _ _ _ Hid Hsecret)).
  rewrite sign_claims_run. cbv zeta. rewrite Htok.
  split; [reflexivity|].
  unfold token_claims.
  repeat split; try (simplify_map_eq; reflexivity); lia.
Qed.

(** A clock that stands still: the claims of [id.secret] with offset 300
    have [exp - timestamp = 300000]. *)
Lemma generate_token_claims_witness :
  exists claims exp timestamp,
    generate_token frozen (Some "id.secret") 300 st0 =
      (Ok "signed-by-secret",
       {| ticks := 2;
          trace := [TimeTime; TimeTime;
                    JwtEncode claims "secret" "HS256" jwt_headers] |}) /\
    claims !! "api_key" = Some (PStr "id") /\
    claims !! "exp" = Some (PInt exp) /\
    claims !! "timestamp" = Some (PInt timestamp) /\
    exp - timestamp = 300 * 1000 - (1700000000000 - 1700000000000) /\
    (1700000000000 = 1700000000000 -> exp - timestamp = 300 * 1000).
Proof.
  apply (generate_token_claims frozen "id" "secret" 300 st0 "signed-by-secret");
    reflexivity.
Defined.

(** With a clock that moves between the two readings the difference is
    not the offset: here it is one millisecond short of 300 seconds. *)
Lemma generate_token_claims_clock_moves :
  generate_token (demo (reply PNone)) (Some "id.secret") 300 st0 =
    (Ok "signed-by-secret",
     {| ticks := 2;
        trace := [TimeTime; TimeTime;
                  JwtEncode (token_claims "id" 1700000300000 1700000000001)
                            "secret" "HS256" jwt_headers] |}) /\
  token_claims "id" 1700000300000 1700000000001 !! "exp" = Some (PInt 1700000300000) /\
  token_claims "id" 1700000300000 1700000000001 !! "timestamp" = Some (PInt 1700000000001) /\
  1700000300000 - 1700000000001 = 299999 /\
  299999 <> 300 * 1000.
Proof.
  split; [vm_compute; reflexivity|].
  split; [vm_compute; reflexivity|]. split; [vm_compute; reflexivity|]. lia.
Qed.

(** ** dict.update *)

(** A key is read from the update first, and from the dict when the
    update has no such key. *)
Lemma dict_update_lookup (d other : gmap string pyval) (k : string) :
  dict_update d other !! k =
    match other !! k with
    | Some v => Some v
    | None => d !! k
    end.
Proof.
  unfold dict_update.
  apply (map_fold_weak_ind
           (fun r (m : gmap string pyval) =>
              r !! k = match m !! k with Some v => Some v | None => d !! k end)).
  - now rewrite lookup_empty.
  - intros i x m r _ IH. rewrite !lookup_insert.
    destruct (decide (i = k)); [reflexivity | exact IH].
Qed.

Lemma build_payload_lookup self prompt kwargs k :
  build_payload self prompt kwargs !! k =
    match kwargs !! k with
    | Some v => Some v
    | None =>
        match default ∅ (model_kwargs self) !! k with
        | Some v => Some v
        | None => base_payload self prompt !! k
        end
    end.
Proof. unfold build_payload. cbv zeta. now rewrite !dict_update_lookup. Qed.

(** The base mapping has the four keys of lines 94-97 and no other. *)
Lemma base_payload_keys self prompt k :
  is_Some (base_payload self prompt !! k) <->
  k = "prompt" \/ k = "temperature" \/ k = "max_length" \/ k = "top_p".
Proof.
  unfold base_payload. split.
  - intros [v H].
    destruct (decide (k = "prompt")) as [|H1]; [auto|].
    destruct (decide (k = "temperature")) as [|H2]; [auto|].
    destruct (decide (k = "max_length")) as [|H3]; [auto|].
    destruct (decide (k = "top_p")) as [|H4]; [auto|].
    now simplify_map_eq.
  - intros [ -> | [ -> | [ -> | -> ] ] ]; simplify_map_eq; eauto.
Qed.

(** ** Slices *)

Lemma length_app_str (a b : string) :
  String.length (a +:+ b) = (String.length a + String.length b)%nat.
Proof. induction a as [|c r IH]; simpl; [reflexivity | now rewrite IH]. Qed.

Lemma substring_0_app (a b : string) :
  substring 0 (String.length a) (a +:+ b) = a.
Proof. induction a as [|c r IH]; simpl; [now destruct b | now rewrite IH]. Qed.

(** [s[1:-1]] on a text of two characters or more: what lies between
    the first and the last character, whatever they are. *)
Lemma slice_str_strip c mid c' :
  slice_str (String c (mid +:+ String c' "")) 1 (-1) = mid.
Proof.
  unfold slice_str, adjust_index. cbn [String.length].
  rewrite length_app_str. cbn [String.length].
  replace (Z.ltb 1 0) with false by reflexivity.
  replace (Z.ltb (-1) 0) with true by reflexivity.
  set (n := String.length mid).
  replace (Z.to_nat (Z.min 1 (Z.of_nat (S (n + 1))))) with 1%nat by lia.
  replace (Z.to_nat (Z.max 0 (-1 + Z.of_nat (S (n + 1)))
                     - Z.min 1 (Z.of_nat (S (n + 1))))) with n by lia.
  cbn [substring]. apply substring_0_app.
Qed.

(** [s[1:-1]] on a text of at most two characters is empty. *)
Lemma slice_str_short s :
  (String.length s <= 2)%nat -> slice_str s 1 (-1) = "".
Proof.
  destruct s as [|a [|b [|c r]]]; simpl; intros H; try reflexivity. lia.
Qed.

(** ** The stop sequences *)

Lemma truncate_at_stop_eq stop s :
  truncate_at_stop stop s =
    if stop_here stop s then ""
    else match s with
         | "" => ""
         | String c r => String c (truncate_at_stop stop r)
         end.
Proof. destruct s; reflexivity. Qed.

(** The text is cut, never changed. *)
Lemma truncate_at_stop_prefix stop s :
  exists rest, s = truncate_at_stop stop s +:+ rest.
Proof.
  induction s as [|c r [rest IH]]; rewrite truncate_at_stop_eq.
  - exists "". now destruct (stop_here stop "").
  - destruct (stop_here stop (String c r)).
    + now exists (String c r).
    + exists rest. rewrite IH at 1. reflexivity.
Qed.

(** The cut is at the earliest place where a stop sequence starts. *)
Lemma truncate_at_stop_earliest stop a b :
  stop_here stop b = true ->
  (forall a1 c a2, a = a1 +:+ String c a2 ->
                   stop_here stop (String c a2 +:+ b) = false) ->
  truncate_at_stop stop (a +:+ b) = a.
Proof.
  intros Hb. induction a as [|c r IH]; intros Ha; rewrite truncate_at_stop_eq.
  - change ("" +:+ b) with b. now rewrite Hb.
  - rewrite (Ha "" c r eq_refl).
    change (String c r +:+ b) with (String c (r +:+ b)). cbv beta iota.
    f_equal. apply IH.
    intros a1 c' a2 ->. apply (Ha (String c a1) c' a2). reflexivity.
Qed.

(** Without a match the text is unchanged. *)
Lemma truncate_at_stop_none stop s :
  (forall a b, s = a +:+ b -> stop_here stop b = false) ->
  truncate_at_stop stop s = s.
Proof.
  induction s as [|c r IH]; intros H; rewrite truncate_at_stop_eq.
  - now rewrite (H "" "" eq_refl).
  - rewrite (H "" (String c r) eq_refl). f_equal. apply IH.
    intros a b ->. apply (H (String c a) b). reflexivity.
Qed.

(** In the quoted [foo STOP bar] the first [STOP] starts after the quote,
    [foo] and a space. *)
Lemma truncate_foo_stop_bar :
  truncate_at_stop ["STOP"] (quoted "foo STOP bar") = String dquote "foo ".
Proof.
  apply (truncate_at_stop_earliest ["STOP"] (String dquote "foo ") "STOP bar");
    [reflexivity|].
  intros a1 c a2 H.
  destruct a1 as [|x1 [|x2 [|x3 [|x4 [|x5 r]]]]]; simpl in H.
  - injection H as <- <-. reflexivity.
  - injection H as _ <- <-. reflexivity.
  - injection H as _ _ <- <-. reflexivity.
  - injection H as _ _ _ <- <-. reflexivity.
  - injection H as _ _ _ _ <- <-. reflexivity.
  - injection H as _ _ _ _ _ H. destruct r; discriminate H.
Qed.

(** ** The body checks *)

Lemma first_content_never_missing data body :
  first_content data <> Raise (MissingContentError body).
Proof.
  unfold first_content.
  destruct (getitem_str data "choices") as [choices|e] eqn:H1.
  - destruct (getitem_0 choices) as [choice|e] eqn:H2.
    + unfold getitem_str. destruct choice; try discriminate.
      destruct (d !! "content"); discriminate.
    + unfold getitem_0 in H2. destruct choices as [| | | |s|l|d]; try congruence.
      * destruct s; congruence.
      * destruct (l !! 0%nat); congruence.
  - unfold getitem_str in H1. destruct data; try congruence.
    destruct (d !! "choices"); congruence.
Qed.

Lemma finish_text_never_missing v stop body :
  finish_text v stop <> Raise (MissingContentError body).
Proof.
  unfold finish_text, enforce_stop_tokens, getslice.
  destruct stop; destruct v; discriminate.
Qed.

Lemma extract_text_content d code data :
  d !! "code" = Some code -> eq_200 code = true -> d !! "data" = Some data ->
  extract_text (PDict d) = first_content data.
Proof. intros Hc He Hd. unfold extract_text. now rewrite Hc, He, Hd. Qed.

Lemma extract_text_missing body b :
  extract_text body = Raise (MissingContentError b) <->
  exists d code,
    body = PDict d /\ b = PDict d /\ d !! "code" = Some code /\
    eq_200 code = true /\ d !! "data" = None.
Proof.
  split.
  - unfold extract_text. destruct body as [| | | | | |d]; try discriminate.
    destruct (d !! "code") as [code|] eqn:Hc; [|discriminate].
    destruct (eq_200 code) eqn:He; simpl.
    + destruct (d !! "data") as [data|] eqn:Hd.
      * intros H. now apply first_content_never_missing in H.
      * intros [= <-]. now exists d, code.
    + destruct (d !! "msg"); discriminate.
  - intros (d & code & -> & -> & Hc & He & Hd).
    unfold extract_text. now rewrite Hc, He, Hd.
Qed.

(** ** The request *)

Lemma send_request_run w self prompt kwargs st token st1 :
  generate_token w (environ w !! KEY) 300 st = (Ok token, st1) ->
  send_request w self prompt kwargs st =
    (match requests_post w (endpoint_url self) (build_headers token)
                         (build_payload self prompt kwargs) with
     | inl e => Raise (TransportError e)
     | inr response => Ok response
     end,
     after st1 (RequestsPost (endpoint_url self) (build_headers token)
                             (build_payload self prompt kwargs))).
Proof.
  intros H. unfold send_request. rewrite (bind_ok _ _ _ _ _ H).
  run_monad. unfold after.
  destruct (requests_post w _ _ _); reflexivity.
Qed.

Lemma send_request_fails w self prompt kwargs st e st1 :
  generate_token w (environ w !! KEY) 300 st = (Raise e, st1) ->
  send_request w self prompt kwargs st = (Raise e, st1).
Proof. intros H. unfold send_request. now rewrite (bind_raise _ _ _ _ _ H). Qed.

(** Sending the request never decodes a body. *)
Lemma send_request_trace w self prompt kwargs st r st2 :
  send_request w self prompt kwargs st = (r, st2) ->
  exists evs, trace st2 = (trace st ++ evs)%list /\ ResponseJson ∉ evs.
Proof.
  destruct (generate_token w (environ w !! KEY) 300 st) as [[token|e] st1] eqn:Hg;
    destruct (generate_token_trace _ _ _ _ _ _ Hg) as (evs & Ht & _ & Hj).
  - rewrite (send_request_run _ _ _ _ _ _ _ Hg). intros [= _ <-].
    eexists. simpl. rewrite Ht, <- app_assoc. split; [reflexivity|].
    intros Hin. apply elem_of_app in Hin as [Hin|Hin]; [now apply Hj|].
    apply list_elem_of_singleton in Hin. discriminate.
  - rewrite (send_request_fails _ _ _ _ _ _ _ Hg). intros [= _ <-].
    now exists evs.
Qed.

(** The request fails only with a credential, signer or transport error. *)
Lemma send_request_raises w self prompt kwargs st e st1 :
  send_request w self prompt kwargs st = (Raise e, st1) ->
  (exists c, e = InvalidCredentialError c) \/ (exists m, e = JwtError m) \/
  (exists m, e = TransportError m).
Proof.
  destruct (generate_token w (environ w !! KEY) 300 st) as [[token|e'] st'] eqn:Hg.
  - rewrite (send_request_run _ _ _ _ _ _ _ Hg).
    destruct (requests_post w _ _ _); [|discriminate].
    intros [= <- _]. right. right. eauto.
  - rewrite (send_request_fails _ _ _ _ _ _ _ Hg). intros [= <- _].
    revert Hg. unfold generate_token. run_monad.
    destruct (split_apikey (environ w !! KEY)) as [[id secret]|e0] eqn:Hsp.
    + rewrite sign_claims_run. cbv zeta.
      destruct (jwt_encode w _ _ _ _); [|discriminate].
      intros [= <- _]. right. left. eauto.
    + intros [= <- _]. left. revert Hsp. unfold split_apikey.
      destruct (environ w !! KEY) as [s|]; [|intros [= <-]; eauto].
      destruct (split "." s) as [|a [|b [|c t]]]; intros [= <-]; eauto.
Qed.

(** ** The response *)

Lemma read_text_bad_status response st :
  status_code response <> 200 ->
  read_text response st = (Raise (EndpointError response), st).
Proof.
  intros H. unfold read_text.
  destruct (Z.eqb_spec (status_code response) 200); [contradiction | reflexivity].
Qed.

Lemma read_text_run response st :
  status_code response = 200 ->
  read_text response st =
    (match json response with
     | None => Raise (ResponseDecodeError (text response))
     | Some parsed_response => extract_text parsed_response
     end, after st ResponseJson).
Proof.
  intros H. unfold read_text. rewrite H. simpl.
  run_monad. unfold after.
  destruct (json response); reflexivity.
Qed.

(** Reading the text makes no request. *)
Lemma read_text_trace response st r st' :
  read_text response st = (r, st') ->
  exists evs, trace st' = (trace st ++ evs)%list /\ posted evs = [].
Proof.
  destruct (Z.eq_dec (status_code response) 200) as [H|H].
  - rewrite (read_text_run _ _ H). intros [= _ <-]. now exists [ResponseJson].
  - rewrite (read_text_bad_status _ _ H). intros [= _ <-]. exists [].
    now rewrite app_nil_r.
Qed.

(** A status other than 200 ends the call in the state the POST left. *)
Lemma call_bad_status w self prompt stop kwargs st response st1 :
  send_request w self prompt kwargs st = (Ok response, st1) ->
  status_code response <> 200 ->
  _call w self prompt stop kwargs st = (Raise (EndpointError response), st1).
Proof.
  intros Hs Hne. unfold _call. rewrite (bind_ok _ _ _ _ _ Hs).
  apply bind_raise. now apply read_text_bad_status.
Qed.

(** ** Calls that were answered with status 200 *)

Section Answered.

Variables (w : world) (self : ZHIPUAI) (prompt : string).
Variables (kwargs : gmap string pyval) (st : state).
Variables (response : Response) (st1 : state).

Hypothesis Hsent : send_request w self prompt kwargs st = (Ok response, st1).
Hypothesis H200 : status_code response = 200.

(** With a decodable body, the outcome is decided by the body alone. *)
Lemma call_run stop body :
  json response = Some body ->
  _call w self prompt stop kwargs st =
    (match extract_text body with
     | Ok v => finish_text v stop
     | Raise e => Raise e
     end, after st1 ResponseJson).
Proof.
  intros Hb. unfold _call. rewrite (bind_ok _ _ _ _ _ Hsent).
  unfold mbind at 1, M_bind. rewrite (read_text_run _ _ H200), Hb.
  destruct (extract_text body); reflexivity.
Qed.

(** A str content is returned with its two ends cut. *)
Lemma call_returns_stripped stop d code data s :
  json response = Some (PDict d) ->
  d !! "code" = Some code -> eq_200 code = true -> d !! "data" = Some data ->
  first_content data = Ok (PStr s) ->
  _call w self prompt stop kwargs st =
    (Ok (PStr (slice_str (stop_text stop s) 1 (-1))), after st1 ResponseJson).
Proof.
  intros Hb Hc He Hd Hf.
  rewrite (call_run _ _ Hb), (extract_text_content _ _ _ Hc He Hd), Hf.
  now destruct stop.
Qed.

(** C3 (code bug).  What the code does at the claim's input.  For a
    successful call whose extracted content is the 14 characters of
    ["foo STOP bar"] with its quotes, and the stop list [["STOP"]], the
    stop sequences are applied to the raw text first and keep what
    precedes the first match: the quote, [foo] and the space.  The
    slice [1:-1], which line 143 says is there to remove the quote
    characters, is applied last and finds no closing quote: it removes
    the space, and [_call] returns [foo] where removing the quotes
    gives [foo] and the space. *)
Theorem call_stop_then_strip d code data :
  json response = Some (PDict d) ->
  d !! "code" = Some code ->
  eq_200 code = true ->
  d !! "data" = Some data ->
  first_content data = Ok (PStr (quoted "foo STOP bar")) ->
  String.length (quoted "foo STOP bar") = 14%nat /\
  finish_text (PStr (quoted "foo STOP bar")) (Some ["STOP"]) =
    Ok (PStr (slice_str (truncate_at_stop ["STOP"] (quoted "foo STOP bar")) 1 (-1))) /\
  truncate_at_stop ["STOP"] (quoted "foo STOP bar") = String dquote "foo " /\
  slice_str (String dquote "foo ") 1 (-1) = "foo" /\
  _call w self prompt (Some ["STOP"]) kwargs st =
    (Ok (PStr "foo"), after st1 ResponseJson).
Proof.
  intros Hb Hc He Hd Hf.
  rewrite (call_returns_stripped (Some ["STOP"]) _ _ _ _ Hb Hc He Hd Hf).
  simpl stop_text. rewrite truncate_foo_stop_bar.
  split; [reflexivity|]. split; [reflexivity|]. split; [reflexivity|].
  split; [exact (slice_str_strip dquote "foo" " ")|].
  now rewrite (slice_str_strip dquote "foo" " " : slice_str (String dquote "foo ") 1 (-1) = "foo").
Qed.

(** C4.  For a response of status 200 whose body is [hello_body], that
    is code 200 and, under data, choices, 0, content, the text [hello]
    between two quote characters, and no stop list, [_call] takes
    [data.choices[0].content], cuts one character at each end and
    returns the five characters [hello]. *)
Theorem call_hello :
  json response = Some hello_body ->
  extract_text hello_body = Ok (PStr (quoted "hello")) /\
  slice_str (quoted "hello") 1 (-1) = "hello" /\
  String.length "hello" = 5%nat /\
  _call w self prompt None kwargs st = (Ok (PStr "hello"), after st1 ResponseJson).
Proof.
  intros Hb.
  assert (Hx : extract_text hello_body = Ok (PStr (quoted "hello")))
    by (vm_compute; reflexivity).
  split; [exact Hx|]. split; [apply slice_str_strip|]. split; [reflexivity|].
  rewrite (call_run None _ Hb), Hx. reflexivity.
Qed.

(** C6 (amended).  For a response of status 200 whose body is a mapping
    with a [code] that differs from 200, [_call] returns no text: when
    the body has a [msg] it fails with RemoteServiceError carrying the
    remote code and the remote msg; when the body has no [msg], reading
    it for the message fails with KeyError. *)
Theorem call_remote_failure stop d code :
  json response = Some (PDict d) ->
  d !! "code" = Some code ->
  eq_200 code = false ->
  (forall msg, d !! "msg" = Some msg ->
     _call w self prompt stop kwargs st =
       (Raise (RemoteServiceError code msg), after st1 ResponseJson)) /\
  (d !! "msg" = None ->
     _call w self prompt stop kwargs st =
       (Raise (KeyError (PStr "msg")), after st1 ResponseJson)) /\
  (forall v, fst (_call w self prompt stop kwargs st) <> Ok v).
Proof.
  intros Hb Hc He. rewrite (call_run stop _ Hb).
  unfold extract_text. rewrite Hc, He. simpl.
  split; [|split].
  - intros msg Hm. now rewrite Hm.
  - intros Hm. now rewrite Hm.
  - intros v. destruct (d !! "msg"); discriminate.
Qed.

End Answered.

(** [_call] returns a value only through the last line of the source. *)
Lemma call_ok_inv w self prompt stop kwargs st v st' :
  _call w self prompt stop kwargs st = (Ok v, st') ->
  exists response st1 body x,
    send_request w self prompt kwargs st = (Ok response, st1) /\
    status_code response = 200 /\
    json response = Some body /\
    extract_text body = Ok x /\
    finish_text x stop = Ok v.
Proof.
  destruct (send_request w self prompt kwargs st) as [[response|e] st1] eqn:Hs.
  - destruct (Z.eq_dec (status_code response) 200) as [H|H].
    + destruct (json response) as [body|] eqn:Hb.
      * rewrite (call_run _ _ _ _ _ _ _ Hs H stop body Hb).
        destruct (extract_text body) as [x|e] eqn:Hx; [|discriminate].
        intros [= Hv _]. now exists response, st1, body, x.
      * unfold _call. rewrite (bind_ok _ _ _ _ _ Hs).
        unfold mbind, M_bind. rewrite (read_text_run _ _ H), Hb. discriminate.
    + now rewrite (call_bad_status _ _ _ stop _ _ _ _ Hs H).
  - unfold _call. now rewrite (bind_raise _ _ _ _ _ Hs).
Qed.

(** ** The examples' world *)

(** In [demo r] the request is sent and answered with [r]. *)
Lemma demo_sent r self prompt kwargs :
  send_request (demo r) self prompt kwargs st0 =
    (Ok r, snd (send_request (demo r) self prompt kwargs st0)).
Proof.
  rewrite (send_request_run (demo r) self prompt kwargs st0 "signed-by-secret"
             (snd (generate_token (demo r) (Some "id.secret") 300 st0)));
    [reflexivity|].
  vm_compute. reflexivity.
Qed.

Lemma call_stop_then_strip_witness :
  fst (_call (demo (reply stop_body)) default_llm "hi" (Some ["STOP"]) ∅ st0) =
    Ok (PStr "foo").
Proof.
  rewrite (proj2 (proj2 (proj2 (proj2
    (call_stop_then_strip (demo (reply stop_body)) default_llm "hi" ∅ st0
       (reply stop_body) _ (demo_sent _ _ _ _) eq_refl
       {[ "code" := PInt 200;
          "data" := PDict {[ "choices" :=
                      PList [PDict {[ "content" := PStr (quoted "foo STOP bar") ]}] ]} ]}
       (PInt 200)
       (PDict {[ "choices" :=
                   PList [PDict {[ "content" := PStr (quoted "foo STOP bar") ]}] ]})
       eq_refl ltac:(vm_compute; reflexivity) eq_refl
       ltac:(vm_compute; reflexivity) ltac:(vm_compute; reflexivity)))))).
  reflexivity.
Defined.

(** At the claim's input the call returns [foo], three characters, and
    not [foo] followed by a space. *)
Lemma call_stop_eats_the_space :
  String.length (quoted "foo STOP bar") = 14%nat /\
  extract_text stop_body = Ok (PStr (quoted "foo STOP bar")) /\
  fst (_call (demo (reply stop_body)) default_llm "hi" (Some ["STOP"]) ∅ st0) =
    Ok (PStr "foo") /\
  PStr "foo" <> PStr "foo ".
Proof.
  split; [reflexivity|]. split; [vm_compute; reflexivity|].
  split; [vm_compute; reflexivity|]. discriminate.
Qed.

Lemma call_hello_witness :
  fst (_call (demo (reply hello_body)) default_llm "hi" None ∅ st0) =
    Ok (PStr "hello").
Proof.
  rewrite (proj2 (proj2 (proj2
    (call_hello (demo (reply hello_body)) default_llm "hi" ∅ st0
       (reply hello_body) _ (demo_sent _ _ _ _) eq_refl eq_refl)))).
  reflexivity.
Defined.

(** The body of the specification's example: code 500, msg "bad request". *)
Lemma call_remote_failure_witness :
  fst (_call (demo (reply bad_request_body)) default_llm "hi" None ∅ st0) =
    Raise (RemoteServiceError (PInt 500) (PStr "bad request")).
Proof.
  rewrite (proj1 (call_remote_failure (demo (reply bad_request_body))
                    default_llm "hi" ∅ st0 (reply bad_request_body) _
                    (demo_sent _ _ _ _) eq_refl None
                    {[ "code" := PInt 500; "msg" := PStr "bad request"; "data" := PDict ∅ ]}
                    (PInt 500)
                    eq_refl ltac:(vm_compute; reflexivity) eq_refl)
                 (PStr "bad request") ltac:(vm_compute; reflexivity)).
  reflexivity.
Defined.

(** A body with code 500 and no msg, status 200: the failure is a
    KeyError, not the RemoteServiceError. *)
Lemma call_remote_failure_without_msg :
  status_code (reply no_msg_body) = 200 /\
  json (reply no_msg_body) = Some (PDict {[ "code" := PInt 500 ]}) /\
  eq_200 (PInt 500) = false /\
  fst (_call (demo (reply no_msg_body)) default_llm "hi" None ∅ st0) =
    Raise (KeyError (PStr "msg")).
Proof.
  split; [reflexivity|]. split; [reflexivity|]. split; [reflexivity|].
  vm_compute. reflexivity.
Qed.

(** ** _call: the request side *)

(** C8.  When the environment has no ZHIPUAI_API_KEY, [_call] fails in
    token generation with the credential error, and nothing has left the
    adapter: the state is the one the call started in, so no POST was
    made. *)
Theorem call_without_key w self prompt stop kwargs st :
  environ w !! KEY = None ->
  _call w self prompt stop kwargs st =
    (Raise (InvalidCredentialError NoSplitAttribute), st) /\
  posted (since st (snd (_call w self prompt stop kwargs st))) = [].
Proof.
  intros H.
  assert (Hc : _call w self prompt stop kwargs st =
               (Raise (InvalidCredentialError NoSplitAttribute), st)).
  { unfold _call. apply bind_raise. apply send_request_fails.
    unfold generate_token. apply bind_raise. now rewrite H. }
  split; [exact Hc|]. rewrite Hc. simpl. now rewrite since_refl.
Qed.

(** An empty environment, and an endpoint that would have answered. *)
Lemma call_without_key_witness :
  _call (served None (reply hello_body)) default_llm "hi" None ∅ st0 =
    (Raise (InvalidCredentialError NoSplitAttribute), st0) /\
  posted (since st0 (snd (_call (served None (reply hello_body))
                                default_llm "hi" None ∅ st0))) = [].
Proof.
  apply (call_without_key (served None (reply hello_body)) default_llm "hi" None ∅ st0).
  reflexivity.
Defined.

(** C7.  When the response's status code is not 200, [_call] fails with
    EndpointError carrying the response, whatever its body is, and in the
    state the POST left: the body was not decoded. *)
Theorem call_status_not_200 w self prompt stop kwargs st response st1 :
  send_request w self prompt kwargs st = (Ok response, st1) ->
  status_code response <> 200 ->
  _call w self prompt stop kwargs st = (Raise (EndpointError response), st1) /\
  ResponseJson ∉ since st st1.
Proof.
  intros Hs Hne. split; [now apply call_bad_status|].
  destruct (send_request_trace _ _ _ _ _ _ _ Hs) as (evs & Ht & Hj).
  now rewrite (since_trace _ _ _ Ht).
Qed.

(** Status 503, with a body that would have been a valid answer. *)
Lemma call_status_not_200_witness :
  _call (demo unavailable) default_llm "hi" None ∅ st0 =
    (Raise (EndpointError unavailable),
     snd (send_request (demo unavailable) default_llm "hi" ∅ st0)) /\
  ResponseJson ∉ since st0 (snd (send_request (demo unavailable) default_llm "hi" ∅ st0)).
Proof.
  apply (call_status_not_200 (demo unavailable) default_llm "hi" None ∅ st0 unavailable).
  - apply demo_sent.
  - vm_compute. discriminate.
Defined.

(** C5.  The payload [_call] posts starts from the mapping of [prompt]
    to the prompt, [temperature] to the temperature, [max_length] to
    max_token and [top_p] to top_p, and no other key; it is updated with
    the extra model parameters and then with the keyword arguments of
    the call: a key is read from the keyword arguments first, then from
    the model parameters, then from the base mapping.  With model
    parameters [top_p = 0.9] and the keyword argument [top_p = 0.5], the
    payload has [top_p = 0.5]. *)
Theorem call_payload_merge w self prompt stop kwargs st token st1 :
  generate_token w (environ w !! KEY) 300 st = (Ok token, st1) ->
  posted (since st (snd (_call w self prompt stop kwargs st))) =
    [build_payload self prompt kwargs] /\
  build_payload self prompt kwargs =
    dict_update
      (dict_update {[ "prompt" := PStr prompt;
                      "temperature" := PFloat (temperature self);
                      "max_length" := PInt (max_token self);
                      "top_p" := PFloat (top_p self) ]}
                   (default ∅ (model_kwargs self))) kwargs /\
  (base_payload self prompt !! "prompt" = Some (PStr prompt) /\
   base_payload self prompt !! "temperature" = Some (PFloat (temperature self)) /\
   base_payload self prompt !! "max_length" = Some (PInt (max_token self)) /\
   base_payload self prompt !! "top_p" = Some (PFloat (top_p self)) /\
   forall k, is_Some (base_payload self prompt !! k) ->
             k = "prompt" \/ k = "temperature" \/ k = "max_length" \/ k = "top_p") /\
  (forall k,
     build_payload self prompt kwargs !! k =
       match kwargs !! k with
       | Some v => Some v
       | None =>
           match default ∅ (model_kwargs self) !! k with
           | Some v => Some v
           | None => base_payload self prompt !! k
           end
       end) /\
  (model_kwargs self = None -> kwargs = ∅ ->
   build_payload self prompt kwargs =
     {[ "prompt" := PStr prompt;
        "temperature" := PFloat (temperature self);
        "max_length" := PInt (max_token self);
        "top_p" := PFloat (top_p self) ]}) /\
  (model_kwargs self = Some {[ "top_p" := PFloat 0.9 ]} ->
   kwargs !! "top_p" = Some (PFloat 0.5) ->
   build_payload self prompt kwargs !! "top_p" = Some (PFloat 0.5) /\
   (kwargs !! "prompt" = None ->
    build_payload self prompt kwargs !! "prompt" = Some (PStr prompt)) /\
   (kwargs !! "temperature" = None ->
    build_payload self prompt kwargs !! "temperature" =
      Some (PFloat (temperature self))) /\
   (kwargs !! "max_length" = None ->
    build_payload self prompt kwargs !! "max_length" =
      Some (PInt (max_token self)))).
Proof.
  intros Hg.
  split; [|split; [reflexivity|split; [|split; [apply build_payload_lookup|split]]]].
  - destruct (generate_token_trace _ _ _ _ _ _ Hg) as (evs & Ht & Hp & _).
    pose proof (send_request_run w self prompt kwargs st token st1 Hg) as Hs.
    unfold _call, mbind at 1, M_bind. rewrite Hs.
    destruct (requests_post w _ _ _) as [msg|response].
    + simpl. erewrite since_trace; [|simpl; rewrite Ht, <- app_assoc; reflexivity].
      rewrite posted_app, Hp. reflexivity.
    + unfold mbind, M_bind.
      destruct (read_text response _) as [[v|e] st2] eqn:Hr;
        destruct (read_text_trace _ _ _ _ Hr) as (evs2 & Ht2 & Hp2);
        unfold after in Ht2; simpl in Ht2.
      * unfold lift. simpl. erewrite since_trace;
          [|rewrite Ht2, Ht, <- !app_assoc; reflexivity].
        rewrite !posted_app, Hp, Hp2. reflexivity.
      * simpl. erewrite since_trace;
          [|rewrite Ht2, Ht, <- !app_assoc; reflexivity].
        rewrite !posted_app, Hp, Hp2. reflexivity.
  - unfold base_payload.
    repeat (split; [now simplify_map_eq|]).
    intros k Hk. now apply (base_payload_keys self prompt k).
  - intros Hm ->. apply map_eq. intros k.
    rewrite build_payload_lookup, Hm. simpl. now rewrite !lookup_empty.
  - intros Hm Hk. rewrite !build_payload_lookup, Hm, Hk. simpl.
    split; [reflexivity|]. unfold base_payload.
    split; [|split]; intros Hn; rewrite Hn; now simplify_map_eq.
Qed.

(** Model parameters [top_p = 0.9], keyword argument [top_p = 0.5]: the
    payload posted, key by key. *)
Lemma call_payload_merge_witness :
  posted (since st0 (snd (_call (demo (reply hello_body)) tuned_llm
                                "hi" None {[ "top_p" := PFloat 0.5 ]} st0))) =
    [build_payload tuned_llm "hi" {[ "top_p" := PFloat 0.5 ]}] /\
  build_payload tuned_llm "hi" {[ "top_p" := PFloat 0.5 ]} !! "top_p" =
    Some (PFloat 0.5) /\
  build_payload tuned_llm "hi" {[ "top_p" := PFloat 0.5 ]} =
    {[ "prompt" := PStr "hi"; "temperature" := PFloat 0.1;
       "max_length" := PInt 20000; "top_p" := PFloat 0.5 ]}.
Proof.
  destruct (call_payload_merge (demo (reply hello_body)) tuned_llm
              "hi" None {[ "top_p" := PFloat 0.5 ]} st0 "signed-by-secret"
              (snd (generate_token (demo (reply hello_body)) (Some "id.secret") 300 st0)))
    as (Hp & _ & _ & _ & _ & Hk).
  - vm_compute. reflexivity.
  - split; [exact Hp|]. split; [apply Hk; reflexivity|].
    vm_compute. reflexivity.
Defined.

(** ** _call: the response side *)

(** C9.  Below the [data] key the extraction is unguarded: for a body
    that is a mapping with code 200 and a [data] mapping, a missing
    [choices] key fails with KeyError, an empty [choices] list with
    IndexError, a first choice without [content] with KeyError; and
    MissingContentError is raised exactly when the body is a mapping with
    code 200 and no [data] key. *)
Theorem call_content_unguarded w self prompt stop kwargs st :
  (forall response st1 d code dd,
     send_request w self prompt kwargs st = (Ok response, st1) ->
     status_code response = 200 ->
     json response = Some (PDict d) ->
     d !! "code" = Some code ->
     eq_200 code = true ->
     d !! "data" = Some (PDict dd) ->
     (dd !! "choices" = None ->
        fst (_call w self prompt stop kwargs st) = Raise (KeyError (PStr "choices"))) /\
     (dd !! "choices" = Some (PList []) ->
        fst (_call w self prompt stop kwargs st) = Raise IndexError) /\
     (forall e rest,
        dd !! "choices" = Some (PList (PDict e :: rest)) ->
        e !! "content" = None ->
        fst (_call w self prompt stop kwargs st) = Raise (KeyError (PStr "content"))))
  /\
  (forall body,
     fst (_call w self prompt stop kwargs st) = Raise (MissingContentError body) <->
     exists response st1 d code,
       send_request w self prompt kwargs st = (Ok response, st1) /\
       status_code response = 200 /\
       json response = Some (PDict d) /\
       body = PDict d /\
       d !! "code" = Some code /\
       eq_200 code = true /\
       d !! "data" = None).
Proof.
  split.
  - intros response st1 d code dd Hs H200 Hb Hc He Hd.
    rewrite (call_run _ _ _ _ _ _ _ Hs H200 stop _ Hb).
    rewrite (extract_text_content _ _ _ Hc He Hd).
    unfold first_content, getitem_str, getitem_0. simpl.
    split; [|split].
    + intros H. now rewrite H.
    + intros H. now rewrite H.
    + intros e rest H H'. rewrite H. simpl. now rewrite H'.
  - intros body. split.
    + destruct (send_request w self prompt kwargs st) as [[response|e] st1] eqn:Hs.
      * destruct (Z.eq_dec (status_code response) 200) as [H200|Hne].
        -- destruct (json response) as [parsed|] eqn:Hb.
           ++ rewrite (call_run _ _ _ _ _ _ _ Hs H200 stop _ Hb). simpl.
              destruct (extract_text parsed) as [x|e] eqn:Hx.
              ** intros H. now apply finish_text_never_missing in H.
              ** intros [= ->].
                 apply extract_text_missing in Hx as (d & code & -> & -> & Hc & He & Hd).
                 now exists response, st1, d, code.
           ++ unfold _call. rewrite (bind_ok _ _ _ _ _ Hs).
              unfold mbind, M_bind. rewrite (read_text_run _ _ H200), Hb. discriminate.
        -- rewrite (call_bad_status _ _ _ stop _ _ _ _ Hs Hne). discriminate.
      * unfold _call. rewrite (bind_raise _ _ _ _ _ Hs). simpl. intros [= ->].
        destruct (send_request_raises _ _ _ _ _ _ _ Hs) as [[c H]|[[m H]|[m H]]];
          discriminate H.
    + intros (response & st1 & d & code & Hs & H200 & Hb & -> & Hc & He & Hd).
      rewrite (call_run _ _ _ _ _ _ _ Hs H200 stop _ Hb).
      now rewrite (proj2 (extract_text_missing (PDict d) (PDict d)))
        by (now exists d, code).
Qed.

(** The body [{"code": 200, "data": {}}]: no [choices]. *)
Lemma call_content_unguarded_witness :
  fst (_call (demo (reply no_choices_body)) default_llm "hi" None ∅ st0) =
    Raise (KeyError (PStr "choices")).
Proof.
  apply (proj1 (proj1 (call_content_unguarded (demo (reply no_choices_body))
                         default_llm "hi" None ∅ st0)
                  (reply no_choices_body) _
                  {[ "code" := PInt 200; "data" := PDict ∅ ]} (PInt 200) ∅
                  (demo_sent _ _ _ _) eq_refl eq_refl
                  ltac:(vm_compute; reflexivity) eq_refl
                  ltac:(vm_compute; reflexivity))).
  reflexivity.
Defined.

(** The other two lookups, and the one guarded key. *)
Example call_empty_choices :
  fst (_call (demo (reply (PDict {[ "code" := PInt 200;
                                    "data" := PDict {[ "choices" := PList [] ]} ]})))
             default_llm "hi" None ∅ st0) = Raise IndexError.
Proof. vm_compute. reflexivity. Qed.

Example call_choice_without_content :
  fst (_call (demo (reply (PDict {[ "code" := PInt 200;
                                    "data" := PDict {[ "choices" := PList [PDict ∅] ]} ]})))
             default_llm "hi" None ∅ st0) = Raise (KeyError (PStr "content")).
Proof. vm_compute. reflexivity. Qed.

(** A [data] that is not a mapping has no key to miss: the subscript
    fails with TypeError, unhandled as well. *)
Example call_null_data :
  fst (_call (demo (reply (PDict {[ "code" := PInt 200; "data" := PNone ]})))
             default_llm "hi" None ∅ st0) = Raise TypeError.
Proof. vm_compute. reflexivity. Qed.

Example call_without_data :
  fst (_call (demo (reply (PDict {[ "code" := PInt 200 ]})))
             default_llm "hi" None ∅ st0) =
    Raise (MissingContentError (PDict {[ "code" := PInt 200 ]})).
Proof. vm_compute. reflexivity. Qed.

(** C10.  The final slice is unconditional.  Whenever [_call] returns,
    the value is the extracted content, stop-truncated when a stop list
    is given, sliced with [1:-1]; for a str content the call returns the
    text with its first and last characters removed, whatever they are;
    and a text of two characters or less gives the empty string. *)
Theorem call_strips_unconditionally w self prompt stop kwargs st :
  (forall v st',
     _call w self prompt stop kwargs st = (Ok v, st') ->
     exists response st1 body x x',
       send_request w self prompt kwargs st = (Ok response, st1) /\
       json response = Some body /\
       extract_text body = Ok x /\
       match stop with
       | Some l => enforce_stop_tokens x l = Ok x'
       | None => x' = x
       end /\
       getslice x' 1 (-1) = Ok v)
  /\
  (forall response st1 d code data s,
     send_request w self prompt kwargs st = (Ok response, st1) ->
     status_code response = 200 ->
     json response = Some (PDict d) ->
     d !! "code" = Some code ->
     eq_200 code = true ->
     d !! "data" = Some data ->
     first_content data = Ok (PStr s) ->
     _call w self prompt stop kwargs st =
       (Ok (PStr (slice_str (stop_text stop s) 1 (-1))), after st1 ResponseJson) /\
     (forall c mid c',
        stop_text stop s = String c (mid +:+ String c' "") ->
        _call w self prompt stop kwargs st = (Ok (PStr mid), after st1 ResponseJson)) /\
     ((String.length (stop_text stop s) <= 2)%nat ->
        _call w self prompt stop kwargs st = (Ok (PStr ""), after st1 ResponseJson))).
Proof.
  split.
  - intros v st' H.
    destruct (call_ok_inv _ _ _ _ _ _ _ _ H)
      as (response & st1 & body & x & Hs & _ & Hb & Hx & Hf).
    unfold finish_text in Hf.
    destruct stop as [l|].
    + destruct (enforce_stop_tokens x l) as [x'|e] eqn:Hstop; [|discriminate].
      now exists response, st1, body, x, x'.
    + now exists response, st1, body, x, x.
  - intros response st1 d code data s Hs H200 Hb Hc He Hd Hf.
    rewrite (call_returns_stripped _ _ _ _ _ _ _ Hs H200 stop _ _ _ _ Hb Hc He Hd Hf).
    split; [reflexivity|split].
    + intros c mid c' ->. now rewrite slice_str_strip.
    + intros Hlen. now rewrite (slice_str_short _ Hlen).
Qed.

(** An empty content gives an empty text. *)
Lemma call_strips_unconditionally_witness :
  _call (demo (reply (content_body (PStr "")))) default_llm "hi" None ∅ st0 =
    (Ok (PStr ""),
     after (snd (send_request (demo (reply (content_body (PStr ""))))
                              default_llm "hi" ∅ st0)) ResponseJson).
Proof.
  apply (proj2 (call_strips_unconditionally (demo (reply (content_body (PStr ""))))
                  default_llm "hi" None ∅ st0)
           (reply (content_body (PStr ""))) _
           {[ "code" := PInt 200;
              "data" := PDict {[ "choices" := PList [PDict {[ "content" := PStr "" ]}] ]} ]}
           (PInt 200)
           (PDict {[ "choices" := PList [PDict {[ "content" := PStr "" ]}] ]})
           ""
           (demo_sent _ _ _ _) eq_refl eq_refl
           ltac:(vm_compute; reflexivity) eq_refl
           ltac:(vm_compute; reflexivity) ltac:(vm_compute; reflexivity)).
  simpl. lia.
Defined.

(** A content that is not quoted loses its two ends all the same, and a
    list content comes back as a list. *)
Example call_unquoted_content :
  fst (_call (demo (reply (content_body (PStr "hello")))) default_llm "hi" None ∅ st0) =
    Ok (PStr "ell").
Proof. vm_compute. reflexivity. Qed.

Example call_list_content :
  fst (_call (demo (reply (content_body (PList [PInt 1; PInt 2; PInt 3]))))
             default_llm "hi" None ∅ st0) = Ok (PList [PInt 2]).
Proof. vm_compute. reflexivity. Qed.

(** * Further properties *)

(** ** The failures of _call, stage by stage *)

Lemma generate_token_run w apikey id secret exp_seconds st :
  split_apikey apikey = Ok (id, secret) ->
  generate_token w apikey exp_seconds st = sign_claims w id secret exp_seconds st.
Proof.
  intros H. unfold generate_token.
  now rewrite (bind_ok _ _ st (id, secret) st) by (unfold lift; now rewrite H).
Qed.

(** X1.  A key that is present but does not split into two parts makes
    [_call] fail with the credential error, the number of parts in its
    cause, before anything leaves the adapter: no clock reading, no
    signing, no POST. *)
Theorem call_malformed_key w self prompt stop kwargs st apikey :
  environ w !! KEY = Some apikey ->
  count_char "." apikey <> 1%nat ->
  _call w self prompt stop kwargs st =
    (Raise (InvalidCredentialError (WrongArity (S (count_char "." apikey)))), st).
Proof.
  intros Hk Hne. unfold _call. apply bind_raise. apply send_request_fails.
  unfold generate_token. apply bind_raise. unfold lift.
  now rewrite Hk, (split_apikey_wrong _ Hne).
Qed.

Lemma call_malformed_key_witness :
  _call (served (Some "no-dot-in-this-key") (reply hello_body))
        default_llm "hi" None ∅ st0 =
    (Raise (InvalidCredentialError (WrongArity 1)), st0).
Proof.
  apply (call_malformed_key (served (Some "no-dot-in-this-key") (reply hello_body))
           default_llm "hi" None ∅ st0 "no-dot-in-this-key").
  - reflexivity.
  - vm_compute. discriminate.
Defined.

(** X2.  When the signer raises, [_call] fails with the signer's error
    after two clock readings and the one signing call, and no POST is
    made: a request is never sent without a token. *)
Theorem call_signer_failure w self prompt stop kwargs st id secret msg :
  split_apikey (environ w !! KEY) = Ok (id, secret) ->
  jwt_encode w (token_claims id (time_ms w (ticks st) + 300 * 1000)
                             (time_ms w (S (ticks st))))
             secret "HS256" jwt_headers = inl msg ->
  fst (_call w self prompt stop kwargs st) = Raise (JwtError msg) /\
  since st (snd (_call w self prompt stop kwargs st)) =
    [TimeTime; TimeTime;
     JwtEncode (token_claims id (time_ms w (ticks st) + 300 * 1000)
                             (time_ms w (S (ticks st))))
               secret "HS256" jwt_headers] /\
  posted (since st (snd (_call w self prompt stop kwargs st))) = [].
Proof.
  intros Hk Hj.
  assert (Hc : _call w self prompt stop kwargs st =
               (Raise (JwtError msg),
                {| ticks := S (S (ticks st));
                   trace := trace st ++
                     [TimeTime; TimeTime;
                      JwtEncode (token_claims id (time_ms w (ticks st) + 300 * 1000)
                                              (time_ms w (S (ticks st))))
                                secret "HS256" jwt_headers] |})).
  { unfold _call. apply bind_raise. apply send_request_fails.
    rewrite (generate_token_run _ _ _ _ _ _ Hk), sign_claims_run. cbv zeta.
    now rewrite Hj. }
  rewrite Hc. cbn [fst snd].
  erewrite since_trace by (cbn [trace]; reflexivity).
  split; [reflexivity|]. split; reflexivity.
Qed.

Lemma call_signer_failure_witness :
  fst (_call unsigned default_llm "hi" None ∅ st0) = Raise (JwtError "invalid key") /\
  since st0 (snd (_call unsigned default_llm "hi" None ∅ st0)) =
    [TimeTime; TimeTime;
     JwtEncode (token_claims "id" (time_ms unsigned (ticks st0) + 300 * 1000)
                             (time_ms unsigned (S (ticks st0))))
               "secret" "HS256" jwt_headers] /\
  posted (since st0 (snd (_call unsigned default_llm "hi" None ∅ st0))) = [].
Proof.
  apply (call_signer_failure unsigned default_llm "hi" None ∅ st0 "id" "secret"
           "invalid key"); reflexivity.
Defined.

(** X3.  When [requests.post] raises, [_call] fails with the transport
    error that carries the cause, right after the one POST: no status is
    read and no body is decoded. *)
Theorem call_transport_failure w self prompt stop kwargs st token st1 msg :
  generate_token w (environ w !! KEY) 300 st = (Ok token, st1) ->
  requests_post w (endpoint_url self) (build_headers token)
                (build_payload self prompt kwargs) = inl msg ->
  _call w self prompt stop kwargs st =
    (Raise (TransportError msg),
     after st1 (RequestsPost (endpoint_url self) (build_headers token)
                             (build_payload self prompt kwargs))) /\
  ResponseJson ∉ since st (snd (_call w self prompt stop kwargs st)).
Proof.
  intros Hg Hp.
  assert (Hs : send_request w self prompt kwargs st =
               (Raise (TransportError msg),
                after st1 (RequestsPost (endpoint_url self) (build_headers token)
                                        (build_payload self prompt kwargs)))).
  { rewrite (send_request_run _ _ _ _ _ _ _ Hg). now rewrite Hp. }
  assert (Hc : _call w self prompt stop kwargs st =
               (Raise (TransportError msg),
                after st1 (RequestsPost (endpoint_url self) (build_headers token)
                                        (build_payload self prompt kwargs)))).
  { unfold _call. now apply bind_raise. }
  split; [exact Hc|]. rewrite Hc. simpl snd.
  destruct (send_request_trace _ _ _ _ _ _ _ Hs) as (evs & Ht & Hj).
  now rewrite (since_trace _ _ _ Ht).
Qed.

Lemma call_transport_failure_witness :
  fst (_call unreachable default_llm "hi" None ∅ st0) =
    Raise (TransportError "connection refused").
Proof.
  rewrite (proj1 (call_transport_failure unreachable default_llm "hi" None ∅ st0
                    "signed-by-secret"
                    (snd (generate_token unreachable (Some "id.secret") 300 st0))
                    "connection refused"
                    ltac:(vm_compute; reflexivity) eq_refl)).
  reflexivity.
Defined.

(** X4.  A response of status 200 whose body is not JSON makes [_call]
    fail with the decoding error, which carries the raw text of the
    response. *)
Theorem call_undecodable_body w self prompt stop kwargs st response st1 :
  send_request w self prompt kwargs st = (Ok response, st1) ->
  status_code response = 200 ->
  json response = None ->
  _call w self prompt stop kwargs st =
    (Raise (ResponseDecodeError (text response)), after st1 ResponseJson).
Proof.
  intros Hs H200 Hb. unfold _call. rewrite (bind_ok _ _ _ _ _ Hs).
  apply bind_raise. now rewrite (read_text_run _ _ H200), Hb.
Qed.

Lemma call_undecodable_body_witness :
  fst (_call (demo garbled) default_llm "hi" None ∅ st0) =
    Raise (ResponseDecodeError "<html>").
Proof.
  rewrite (call_undecodable_body (demo garbled) default_llm "hi" None ∅ st0
             garbled _ (demo_sent _ _ _ _) eq_refl eq_refl).
  reflexivity.
Defined.

(** X5.  A decoded body that is not a mapping (a list, a str, a number,
    a bool, null) makes [_call] fail with the unexpected-type error that
    carries the body; none of its content is looked at. *)
Theorem call_body_not_mapping w self prompt stop kwargs st response st1 body :
  send_request w self prompt kwargs st = (Ok response, st1) ->
  status_code response = 200 ->
  json response = Some body ->
  (forall d, body <> PDict d) ->
  _call w self prompt stop kwargs st =
    (Raise (UnexpectedResponseError body), after st1 ResponseJson).
Proof.
  intros Hs H200 Hb Hnd.
  rewrite (call_run _ _ _ _ _ _ _ Hs H200 stop _ Hb).
  destruct body; try reflexivity. now destruct (Hnd d).
Qed.

Lemma call_body_not_mapping_witness :
  fst (_call (demo (reply (PList [hello_body]))) default_llm "hi" None ∅ st0) =
    Raise (UnexpectedResponseError (PList [hello_body])).
Proof.
  rewrite (call_body_not_mapping (demo (reply (PList [hello_body]))) default_llm
             "hi" None ∅ st0 (reply (PList [hello_body])) _ (PList [hello_body])
             (demo_sent _ _ _ _) eq_refl eq_refl
             ltac:(intros d H; discriminate H)).
  reflexivity.
Defined.

(** X6.  A mapping without a [code] key makes [_call] fail with the
    KeyError of the first lookup, whatever else the mapping holds: a
    well-formed [data] is not returned, and the failure is none of the
    errors the source raises itself. *)
Theorem call_body_without_code w self prompt stop kwargs st response st1 d :
  send_request w self prompt kwargs st = (Ok response, st1) ->
  status_code response = 200 ->
  json response = Some (PDict d) ->
  d !! "code" = None ->
  _call w self prompt stop kwargs st =
    (Raise (KeyError (PStr "code")), after st1 ResponseJson).
Proof.
  intros Hs H200 Hb Hc.
  rewrite (call_run _ _ _ _ _ _ _ Hs H200 stop _ Hb).
  unfold extract_text. now rewrite Hc.
Qed.

Lemma call_body_without_code_witness :
  fst (_call (demo (reply codeless_body)) default_llm "hi" None ∅ st0) =
    Raise (KeyError (PStr "code")).
Proof.
  rewrite (call_body_without_code (demo (reply codeless_body)) default_llm
             "hi" None ∅ st0 (reply codeless_body) _
             {[ "data" := PDict {[ "choices" :=
                  PList [PDict {[ "content" := PStr (quoted "hello") ]}] ]} ]}
             (demo_sent _ _ _ _) eq_refl eq_refl ltac:(vm_compute; reflexivity)).
  reflexivity.
Defined.

(** ** The calls _call makes to the outside *)

(** X7.  With a key of two parts and a signer that accepts it, [_call]
    makes its outside calls in this order and no others: two clock
    readings, one signing of claims that expire 300 seconds after the
    first reading, one POST to the configured URL whose Authorization
    header is [Bearer] followed by the token the signer returned, and,
    only when the POST returned a response of status 200, one decoding
    of the body. *)
Theorem call_outside_calls w self prompt stop kwargs st id secret token :
  split_apikey (environ w !! KEY) = Ok (id, secret) ->
  jwt_encode w (token_claims id (time_ms w (ticks st) + 300 * 1000)
                             (time_ms w (S (ticks st))))
             secret "HS256" jwt_headers = inr token ->
  since st (snd (_call w self prompt stop kwargs st)) =
    ([TimeTime; TimeTime;
      JwtEncode (token_claims id (time_ms w (ticks st) + 300 * 1000)
                              (time_ms w (S (ticks st))))
                secret "HS256" jwt_headers;
      RequestsPost (endpoint_url self) (build_headers token)
                   (build_payload self prompt kwargs)] ++
     match requests_post w (endpoint_url self) (build_headers token)
                         (build_payload self prompt kwargs) with
     | inr response => if Z.eqb (status_code response) 200 then [ResponseJson] else []
     | inl _ => []
     end)%list /\
  build_headers token !! "Authorization" = Some ("Bearer " +:+ token) /\
  build_headers token !! "Content-Type" = Some "application/json" /\
  ticks (snd (_call w self prompt stop kwargs st)) = S (S (ticks st)).
Proof.
  intros Hk Hj.
  pose proof (generate_token_run w _ _ _ 300 st Hk) as Hg.
  rewrite sign_claims_run in Hg. cbv zeta in Hg. rewrite Hj in Hg.
  pose proof (send_request_run w self prompt kwargs st _ _ Hg) as Hs.
  split; [|split; [|split]].
  - unfold _call. unfold mbind at 1, M_bind. rewrite Hs.
    destruct (requests_post w _ _ _) as [msg|response].
    + cbn [snd]. apply since_trace. unfold after. cbn [trace].
      now rewrite <- !app_assoc.
    + unfold mbind, M_bind.
      destruct (Z.eqb_spec (status_code response) 200) as [H200|Hne].
      * rewrite (read_text_run _ _ H200).
        assert (Hsnd : forall (r : result pyval) (s' : state),
                   snd (match r with
                        | Ok a => lift (finish_text a stop) s'
                        | Raise e => (Raise e, s')
                        end) = s') by (now intros [a|e] s').
        rewrite Hsnd. apply since_trace. unfold after. cbn [trace].
        now rewrite <- !app_assoc.
      * rewrite (read_text_bad_status _ _ Hne). cbn [snd].
        apply since_trace. unfold after. cbn [trace].
        now rewrite <- !app_assoc.
  - unfold build_headers. now simplify_map_eq.
  - unfold build_headers. now simplify_map_eq.
  - unfold _call. unfold mbind at 1, M_bind. rewrite Hs.
    destruct (requests_post w _ _ _) as [msg|response]; [reflexivity|].
    unfold mbind, M_bind.
    destruct (Z.eqb_spec (status_code response) 200) as [H200|Hne].
    + rewrite (read_text_run _ _ H200).
      now destruct (match json response with
                    | Some parsed_response => extract_text parsed_response
                    | None => Raise (ResponseDecodeError (text response))
                    end).
    + now rewrite (read_text_bad_status _ _ Hne).
Qed.

Lemma call_outside_calls_witness :
  posted (since st0 (snd (_call (demo unavailable) default_llm "hi" None ∅ st0))) =
    [build_payload default_llm "hi" ∅] /\
  ticks (snd (_call (demo unavailable) default_llm "hi" None ∅ st0)) = 2%nat.
Proof.
  destruct (call_outside_calls (demo unavailable) default_llm "hi" None ∅ st0
              "id" "secret" "signed-by-secret" eq_refl eq_refl)
    as (Ht & _ & _ & Hn).
  split; [|exact Hn]. rewrite Ht. reflexivity.
Defined.

(** ** The payload *)

Lemma dict_update_union (d other : gmap string pyval) :
  dict_update d other = other ∪ d.
Proof.
  apply map_eq. intros k. rewrite dict_update_lookup, lookup_union.
  destruct (other !! k), (d !! k); reflexivity.
Qed.

(** X8.  The payload's keys are the four keys of the base mapping and
    the keys of the model parameters and of the keyword arguments, and
    nothing protects the base keys: the prompt sent is the caller's
    prompt only when neither of the two has a [prompt] key, and a
    [prompt] among the model parameters replaces it.  Without model
    parameters ([None] or an empty dict) and without keyword arguments
    the payload is the base mapping. *)
Theorem build_payload_keys self prompt kwargs :
  (forall k,
     is_Some (build_payload self prompt kwargs !! k) <->
     (k = "prompt" \/ k = "temperature" \/ k = "max_length" \/ k = "top_p") \/
     is_Some (default ∅ (model_kwargs self) !! k) \/
     is_Some (kwargs !! k)) /\
  (kwargs !! "prompt" = None ->
   default ∅ (model_kwargs self) !! "prompt" = None ->
   build_payload self prompt kwargs !! "prompt" = Some (PStr prompt)) /\
  (forall p,
     kwargs !! "prompt" = None ->
     default ∅ (model_kwargs self) !! "prompt" = Some p ->
     build_payload self prompt kwargs !! "prompt" = Some p) /\
  (default ∅ (model_kwargs self) = ∅ -> kwargs = ∅ ->
   build_payload self prompt kwargs = base_payload self prompt).
Proof.
  split; [|split; [|split]].
  - intros k. rewrite build_payload_lookup, <- (base_payload_keys self prompt k).
    destruct (kwargs !! k) as [v|] eqn:Hk.
    + split; [intros _; right; right; eauto | eauto].
    + destruct (default ∅ (model_kwargs self) !! k) as [v|] eqn:Hm.
      * split; [intros _; right; left; eauto | eauto].
      * split; [intros H; left; exact H|].
        intros [H|[[v H]|[v H]]]; [exact H | discriminate H | discriminate H].
  - intros Hk Hm. rewrite build_payload_lookup, Hk, Hm.
    unfold base_payload. now simplify_map_eq.
  - intros p Hk Hm. now rewrite build_payload_lookup, Hk, Hm.
  - intros Hm ->. unfold build_payload. cbv zeta.
    rewrite Hm, !dict_update_union. now rewrite !(left_id_L ∅ (∪)).
Qed.

(** A [prompt] among the model parameters is sent in place of the
    caller's. *)
Example build_payload_prompt_replaced :
  build_payload (mkZHIPUAI "http://127.0.0.1:8000/"
                           (Some {[ "prompt" := PStr "ignore the user" ]})
                           20000 0.1 0.7)
                "hi" ∅ !! "prompt" = Some (PStr "ignore the user").
Proof. vm_compute. reflexivity. Qed.

(** ** The credential check *)

(** X9.  The credential check is a round trip: a credential is accepted
    with the parts [id] and [secret] exactly when it is [id], a dot and
    [secret] and neither part contains a dot.  The parts are not checked
    any further: an empty id and an empty secret are accepted. *)
Theorem split_apikey_round_trip (apikey id secret : string) :
  (split_apikey (Some apikey) = Ok (id, secret) <->
   apikey = id +:+ String "." secret /\
   count_char "." id = 0%nat /\ count_char "." secret = 0%nat) /\
  (count_char "." secret = 0%nat ->
   split_apikey (Some (String "." secret)) = Ok ("", secret)) /\
  (count_char "." id = 0%nat ->
   split_apikey (Some (id +:+ ".")) = Ok (id, "")).
Proof.
  split; [|split].
  - split.
    + intros H.
      destruct (Nat.eq_dec (count_char "." apikey) 1%nat) as [H1|Hne].
      * destruct (split_one_sep _ _ H1) as (a & b & -> & Ha & Hb & Hs).
        rewrite (split_apikey_ok _ _ _ Hs) in H. now injection H as <- <-.
      * now rewrite (split_apikey_wrong _ Hne) in H.
    + intros (-> & Hi & Hs). apply split_apikey_ok. now apply split_joined.
  - intros H0. apply split_apikey_ok. now apply (split_joined "." "" secret).
  - intros H0. apply split_apikey_ok. now apply (split_joined "." id "").
Qed.

(** ** The returned value *)

Lemma length_substring n m s :
  String.length (substring n m s) = Nat.min m (String.length s - n).
Proof.
  revert n m. induction s as [|c r IH]; intros n m.
  - destruct n, m; reflexivity.
  - destruct n as [|n].
    + destruct m as [|m]; [reflexivity|]. simpl. rewrite IH.
      now rewrite Nat.sub_0_r.
    + simpl. apply IH.
Qed.

Lemma length_slice_str s :
  String.length (slice_str s 1 (-1)) = (String.length s - 2)%nat.
Proof.
  unfold slice_str, adjust_index. rewrite length_substring.
  replace (Z.ltb 1 0) with false by reflexivity.
  replace (Z.ltb (-1) 0) with true by reflexivity.
  lia.
Qed.

Lemma slice_list_strip {A : Type} (a : A) mid b :
  slice_list (a :: mid ++ [b]) 1 (-1) = mid.
Proof.
  unfold slice_list, adjust_index. cbn [length]. rewrite length_app. cbn [length].
  replace (Z.ltb 1 0) with false by reflexivity.
  replace (Z.ltb (-1) 0) with true by reflexivity.
  set (n := length mid).
  replace (Z.to_nat (Z.min 1 (Z.of_nat (S (n + 1))))) with 1%nat by lia.
  replace (Z.to_nat (Z.max 0 (-1 + Z.of_nat (S (n + 1)))
                     - Z.min 1 (Z.of_nat (S (n + 1))))) with n by lia.
  cbn [drop]. subst n. rewrite drop_0. apply take_app_length.
Qed.

(** X10.  On a successful call with a str content, the text returned is
    two characters shorter than the text the slice is applied to (the
    content, or what the stop tokens left of it), and empty when that
    text has fewer than two characters: a call never returns the content
    unchanged unless the content is empty. *)
Theorem call_returns_two_shorter w self prompt stop kwargs st response st1 d code data s t :
  send_request w self prompt kwargs st = (Ok response, st1) ->
  status_code response = 200 ->
  json response = Some (PDict d) ->
  d !! "code" = Some code ->
  eq_200 code = true ->
  d !! "data" = Some data ->
  first_content data = Ok (PStr s) ->
  match stop with
  | Some l => enforce_stop_tokens (PStr s) l = Ok (PStr t)
  | None => t = s
  end ->
  exists r,
    _call w self prompt stop kwargs st = (Ok (PStr r), after st1 ResponseJson) /\
    String.length r = (String.length t - 2)%nat /\
    (r = t -> t = "").
Proof.
  intros Hs H200 Hb Hc He Hd Hf Ht.
  exists (slice_str t 1 (-1)).
  rewrite (call_run _ _ _ _ _ _ _ Hs H200 stop _ Hb).
  rewrite (extract_text_content _ _ _ Hc He Hd), Hf.
  split; [|split].
  - unfold finish_text. destruct stop as [l|]; [now rewrite Ht | now subst].
  - apply length_slice_str.
  - intros Hr. pose proof (length_slice_str t) as Hl. rewrite Hr in Hl.
    destruct t; [reflexivity | simpl in Hl; lia].
Qed.

Lemma call_returns_two_shorter_witness :
  exists r,
    _call (demo (reply hello_body)) default_llm "hi" None ∅ st0 =
      (Ok (PStr r),
       after (snd (send_request (demo (reply hello_body)) default_llm "hi" ∅ st0))
             ResponseJson) /\
    String.length r = (String.length (quoted "hello") - 2)%nat /\
    (r = quoted "hello" -> quoted "hello" = "").
Proof.
  apply (call_returns_two_shorter (demo (reply hello_body)) default_llm "hi" None ∅ st0
           (reply hello_body) _
           {[ "code" := PInt 200;
              "data" := PDict {[ "choices" :=
                          PList [PDict {[ "content" := PStr (quoted "hello") ]}] ]} ]}
           (PInt 200)
           (PDict {[ "choices" := PList [PDict {[ "content" := PStr (quoted "hello") ]}] ]})
           (quoted "hello") (quoted "hello")
           (demo_sent _ _ _ _) eq_refl eq_refl
           ltac:(vm_compute; reflexivity) eq_refl
           ltac:(vm_compute; reflexivity) ltac:(vm_compute; reflexivity) eq_refl).
Defined.

(** X11.  The content is not checked to be a str.  Without a stop list,
    a list content makes [_call] return a list, the content without its
    first and last elements, and a content that is null, a bool or a
    number makes it fail with the TypeError of the final slice. *)
Theorem call_content_not_str w self prompt kwargs st response st1 d code data content :
  send_request w self prompt kwargs st = (Ok response, st1) ->
  status_code response = 200 ->
  json response = Some (PDict d) ->
  d !! "code" = Some code ->
  eq_200 code = true ->
  d !! "data" = Some data ->
  first_content data = Ok content ->
  (forall a mid b,
     content = PList (a :: mid ++ [b]) ->
     _call w self prompt None kwargs st = (Ok (PList mid), after st1 ResponseJson)) /\
  (forall l,
     content = PList l -> (length l <= 2)%nat ->
     _call w self prompt None kwargs st = (Ok (PList []), after st1 ResponseJson)) /\
  (content = PNone \/ (exists b, content = PBool b) \/
   (exists z, content = PInt z) \/ (exists f, content = PFloat f) ->
   _call w self prompt None kwargs st = (Raise TypeError, after st1 ResponseJson)).
Proof.
  intros Hs H200 Hb Hc He Hd Hf.
  rewrite (call_run _ _ _ _ _ _ _ Hs H200 None _ Hb).
  rewrite (extract_text_content _ _ _ Hc He Hd), Hf.
  split; [|split].
  - intros a mid b ->. unfold finish_text, getslice.
    now rewrite slice_list_strip.
  - intros l -> Hl. unfold finish_text, getslice.
    destruct l as [|x [|y [|z l]]]; try reflexivity. simpl in Hl. lia.
  - intros [->|[[b ->]|[[z ->]|[f ->]]]]; reflexivity.
Qed.

Lemma call_content_not_str_witness :
  _call (demo (reply (content_body (PInt 42)))) default_llm "hi" None ∅ st0 =
    (Raise TypeError,
     after (snd (send_request (demo (reply (content_body (PInt 42))))
                              default_llm "hi" ∅ st0)) ResponseJson).
Proof.
  apply (proj2 (proj2
    (call_content_not_str (demo (reply (content_body (PInt 42)))) default_llm "hi" ∅ st0
       (reply (content_body (PInt 42))) _
       {[ "code" := PInt 200;
          "data" := PDict {[ "choices" := PList [PDict {[ "content" := PInt 42 ]}] ]} ]}
       (PInt 200)
       (PDict {[ "choices" := PList [PDict {[ "content" := PInt 42 ]}] ]})
       (PInt 42)
       (demo_sent _ _ _ _) eq_refl eq_refl
       ltac:(vm_compute; reflexivity) eq_refl
       ltac:(vm_compute; reflexivity) ltac:(vm_compute; reflexivity)))).
  right. right. left. now exists 42.
Defined.

(** ** The identifying parameters *)

Lemma identifying_params_lookup self k :
  _identifying_params self !! k =
    if decide (k = "model_kwargs")
    then Some (PDict (default ∅ (model_kwargs self)))
    else if decide (k = "endpoint_url")
         then Some (PStr (endpoint_url self))
         else None.
Proof.
  unfold _identifying_params. cbv zeta. rewrite dict_update_lookup.
  destruct (decide (k = "model_kwargs")) as [->|H1].
  - now rewrite lookup_singleton_eq.
  - rewrite lookup_singleton_ne by congruence.
    destruct (decide (k = "endpoint_url")) as [->|H2].
    + now rewrite lookup_singleton_eq.
    + now rewrite lookup_singleton_ne by congruence.
Qed.

(** X12.  The identifying parameters have exactly the keys
    [endpoint_url] and [model_kwargs], the latter always a dict; two
    adapters have the same identifying parameters exactly when they have
    the same URL and the same model parameters, [None] counting as the
    empty dict: the temperature, top_p and max_token do not identify an
    adapter. *)
Theorem identifying_params_identity (a b : ZHIPUAI) :
  (forall k, is_Some (_identifying_params a !! k) <->
             k = "endpoint_url" \/ k = "model_kwargs") /\
  _identifying_params a !! "endpoint_url" = Some (PStr (endpoint_url a)) /\
  _identifying_params a !! "model_kwargs" =
    Some (PDict (default ∅ (model_kwargs a))) /\
  (_identifying_params a = _identifying_params b <->
   endpoint_url a = endpoint_url b /\
   default ∅ (model_kwargs a) = default ∅ (model_kwargs b)).
Proof.
  split; [|split; [|split]].
  - intros k. rewrite identifying_params_lookup.
    destruct (decide (k = "model_kwargs")) as [->|H1].
    + split; [now right | eauto].
    + destruct (decide (k = "endpoint_url")) as [->|H2].
      * split; [now left | eauto].
      * split; [intros [v H]; discriminate H | intros [H|H]; contradiction].
  - now rewrite identifying_params_lookup.
  - now rewrite identifying_params_lookup.
  - split.
    + intros H. split.
      * assert (Hu : _identifying_params a !! "endpoint_url" =
                     _identifying_params b !! "endpoint_url") by now rewrite H.
        rewrite !identifying_params_lookup in Hu. simpl in Hu. congruence.
      * assert (Hm : _identifying_params a !! "model_kwargs" =
                     _identifying_params b !! "model_kwargs") by now rewrite H.
        rewrite !identifying_params_lookup in Hm. simpl in Hm. congruence.
    + intros [Hu Hm]. apply map_eq. intros k.
      now rewrite !identifying_params_lookup, Hu, Hm.
Qed.

(** Adapters that differ in every sampling parameter, one with no model
    parameters and one with an empty dict, are not told apart. *)
Lemma identifying_params_identity_witness :
  _identifying_params default_llm =
  _identifying_params (mkZHIPUAI "http://127.0.0.1:8000/" (Some ∅) 64 9.5 0.01).
Proof.
  apply (proj2 (proj2 (proj2 (proj2
    (identifying_params_identity default_llm
       (mkZHIPUAI "http://127.0.0.1:8000/" (Some ∅) 64 9.5 0.01)))))).
  split; reflexivity.
Defined.

(** ** The claims of the token *)

(** X13.  For a credential of two parts and a signer that accepts it,
    [generate_token] makes exactly three outside calls, two clock
    readings and one signing with the secret as key and HS256 as
    algorithm; the claims it signs have the three keys [api_key], [exp]
    and [timestamp] and no other; [exp] is counted from the first
    reading, and the offset is not validated: with an offset of zero or
    less the token has expired when it is made. *)
Theorem generate_token_signs_three_claims w id secret exp_seconds st token :
  split_apikey (Some (id +:+ String "." secret)) = Ok (id, secret) ->
  jwt_encode w (token_claims id (time_ms w (ticks st) + exp_seconds * 1000)
                             (time_ms w (S (ticks st))))
             secret "HS256" jwt_headers = inr token ->
  since st (snd (generate_token w (Some (id +:+ String "." secret)) exp_seconds st)) =
    [TimeTime; TimeTime;
     JwtEncode (token_claims id (time_ms w (ticks st) + exp_seconds * 1000)
                             (time_ms w (S (ticks st))))
               secret "HS256" jwt_headers] /\
  (forall exp timestamp k,
     is_Some (token_claims id exp timestamp !! k) <->
     k = "api_key" \/ k = "exp" \/ k = "timestamp") /\
  (exp_seconds <= 0 ->
   exists exp,
     token_claims id (time_ms w (ticks st) + exp_seconds * 1000)
                  (time_ms w (S (ticks st))) !! "exp" = Some (PInt exp) /\
     exp <= time_ms w (ticks st)).
Proof.
  intros Hk Hj. split; [|split].
  - rewrite (generate_token_run _ _ _ _ _ _ Hk), sign_claims_run. cbv zeta.
    cbn [snd]. now apply since_trace.
  - intros exp timestamp k. unfold token_claims. split.
    + intros [v H].
      destruct (decide (k = "api_key")) as [|H1]; [auto|].
      destruct (decide (k = "exp")) as [|H2]; [auto|].
      destruct (decide (k = "timestamp")) as [|H3]; [auto|].
      now simplify_map_eq.
    + intros [ -> | [ -> | -> ] ]; simplify_map_eq; eauto.
  - intros Hle. exists (time_ms w (ticks st) + exp_seconds * 1000). split.
    + unfold token_claims. now simplify_map_eq.
    + lia.
Qed.

Lemma generate_token_signs_three_claims_witness :
  exists exp,
    token_claims "id" (time_ms frozen (ticks st0) + (-60) * 1000)
                 (time_ms frozen (S (ticks st0))) !! "exp" = Some (PInt exp) /\
    exp <= time_ms frozen (ticks st0).
Proof.
  apply (proj2 (proj2
    (generate_token_signs_three_claims frozen "id" "secret" (-60) st0
       "signed-by-secret" eq_refl eq_refl))).
  vm_compute. discriminate.
Defined.
